(** * Runtime-dispatched [V]PCLMULQDQ CRC glue and the AMD 3D V-Cache driver

    Shallow embedding of

    - [arch/x86/lib/crc-pclmul-template-glue.h]: the macros
      [DECLARE_CRC_PCLMUL_FUNCS], [INIT_CRC_PCLMUL] and [CRC_PCLMUL];
    - [drivers/platform/x86/amd/x3d_vcache.c]: [amd_x3d_mode_switch],
      [amd_x3d_mode_store] and [amd_x3d_mode_show].

    The macros are statement macros acting on kernel-global state (the
    static call target, the per-CPU "FPU in use" flag), so they are embedded
    in a small state-and-fault monad.  The driver functions act on one
    device record and are embedded with explicit state passing. *)

From Stdlib Require Import ZArith NArith List Bool String Ascii Lia.
Import ListNotations.

(* ===================================================================== *)
(** * Part I.  Definitions: crc-pclmul-template-glue.h                    *)
(* ===================================================================== *)

Module CrcPclmul.

Local Open Scope N_scope.

(** [crc_t] is [u16] or [u32] depending on the instantiation; the glue code
    never computes on it, it only passes it through. *)
Definition crc_t := Z.

Definition byte := Byte.byte.

(** The four assembly entry points declared by [DECLARE_CRC_PCLMUL_FUNCS]
    ([prefix##_pclmul_sse] ... [prefix##_vpclmul_avx10_512]). *)
Inductive crc_func : Type :=
| pclmul_sse
| vpclmul_avx2
| vpclmul_avx10_256
| vpclmul_avx10_512.

(** ** Platform capabilities read by [INIT_CRC_PCLMUL] *)

Inductive x86_feature : Type :=
| X86_FEATURE_VPCLMULQDQ
| X86_FEATURE_AVX2
| X86_FEATURE_AVX512BW
| X86_FEATURE_AVX512VL
| X86_FEATURE_PREFER_YMM.

Inductive xfeature_mask : Type :=
| XFEATURE_MASK_YMM
| XFEATURE_MASK_AVX512.

(** One boolean per condition that the macro tests.  [CONFIG_AS_VPCLMULQDQ]
    is the build-time switch read through [IS_ENABLED]. *)
Record platform : Type := {
  CONFIG_AS_VPCLMULQDQ : bool;
  cap_vpclmulqdq : bool;
  cap_avx2 : bool;
  cap_avx512bw : bool;
  cap_avx512vl : bool;
  cap_prefer_ymm : bool;
  xstate_ymm : bool;
  xstate_avx512 : bool
}.

Definition IS_ENABLED (b : bool) : bool := b.

Definition boot_cpu_has (c : platform) (f : x86_feature) : bool :=
  match f with
  | X86_FEATURE_VPCLMULQDQ => cap_vpclmulqdq c
  | X86_FEATURE_AVX2 => cap_avx2 c
  | X86_FEATURE_AVX512BW => cap_avx512bw c
  | X86_FEATURE_AVX512VL => cap_avx512vl c
  | X86_FEATURE_PREFER_YMM => cap_prefer_ymm c
  end.

Definition cpu_has_xfeatures (c : platform) (m : xfeature_mask) : bool :=
  match m with
  | XFEATURE_MASK_YMM => xstate_ymm c
  | XFEATURE_MASK_AVX512 => xstate_avx512 c
  end.

(** ** Kernel state touched by the macros *)

Inductive event : Type :=
| EvStaticCallUpdate (f : crc_func)
| EvKernelFpuBegin
| EvStaticCall (f : crc_func) (len : N)
| EvKernelFpuEnd.

Record kstate : Type := {
  pclmul_target : crc_func;   (* the static call [prefix##_pclmul] *)
  in_kernel_fpu : bool;       (* the vector-register file is held *)
  fpu_context_ok : bool;      (* the execution context may use SIMD *)
  klog : list event           (* what has been executed so far *)
}.

Inductive fault : Type :=
| FaultFpuUnusable      (* kernel_fpu_begin() where SIMD is not usable *)
| FaultFpuNotHeld       (* kernel_fpu_end() or SIMD code outside a section *)
| FaultShortInput.      (* a SIMD function entered with len < 16 *)

Definition M (A : Type) : Type := kstate -> fault + (A * kstate).

Definition ret {A} (a : A) : M A := fun s => inr (a, s).

Definition bind {A B} (m : M A) (k : A -> M B) : M B :=
  fun s => match m s with
           | inl e => inl e
           | inr (a, s') => k a s'
           end.

Declare Scope kmonad_scope.
Delimit Scope kmonad_scope with kmonad.
Notation "x <- m ;; k" := (bind m (fun x => k))
  (at level 61, m at next level, right associativity) : kmonad_scope.
Notation "m ;; k" := (bind m (fun _ => k))
  (at level 61, right associativity) : kmonad_scope.
Local Open Scope kmonad_scope.

Definition emit (e : event) (s : kstate) : kstate :=
  {| pclmul_target := pclmul_target s;
     in_kernel_fpu := in_kernel_fpu s;
     fpu_context_ok := fpu_context_ok s;
     klog := klog s ++ [e] |}.

Definition set_target (f : crc_func) (s : kstate) : kstate :=
  {| pclmul_target := f;
     in_kernel_fpu := in_kernel_fpu s;
     fpu_context_ok := fpu_context_ok s;
     klog := klog s |}.

Definition set_in_kernel_fpu (b : bool) (s : kstate) : kstate :=
  {| pclmul_target := pclmul_target s;
     in_kernel_fpu := b;
     fpu_context_ok := fpu_context_ok s;
     klog := klog s |}.

Definition set_context (b : bool) (s : kstate) : kstate :=
  {| pclmul_target := pclmul_target s;
     in_kernel_fpu := in_kernel_fpu s;
     fpu_context_ok := b;
     klog := klog s |}.

(** [DEFINE_STATIC_CALL(prefix##_pclmul, prefix##_pclmul_sse)]: the value of
    the slot in a freshly loaded image. *)
Definition DEFINE_STATIC_CALL : crc_func := pclmul_sse.

Definition boot_state (ctx_ok : bool) : kstate :=
  {| pclmul_target := DEFINE_STATIC_CALL;
     in_kernel_fpu := false;
     fpu_context_ok := ctx_ok;
     klog := [] |}.

Definition static_call_update (f : crc_func) : M unit :=
  fun s => inr (tt, emit (EvStaticCallUpdate f) (set_target f s)).

(** Helpers of <crypto/internal/simd.h> and <asm/fpu/api.h>, which are not
    part of the two files embedded here.  A context may use SIMD when it is
    of a permitted kind and does not already hold the register file;
    [kernel_fpu_begin] outside such a context and [kernel_fpu_end] without a
    matching begin are faults. *)
Definition simd_usable (s : kstate) : bool :=
  fpu_context_ok s && negb (in_kernel_fpu s).

Definition crypto_simd_usable : M bool :=
  fun s => inr (simd_usable s, s).

Definition kernel_fpu_begin : M unit :=
  fun s => if simd_usable s
           then inr (tt, emit EvKernelFpuBegin (set_in_kernel_fpu true s))
           else inl FaultFpuUnusable.

Definition kernel_fpu_end : M unit :=
  fun s => if in_kernel_fpu s
           then inr (tt, emit EvKernelFpuEnd (set_in_kernel_fpu false s))
           else inl FaultFpuNotHeld.

(** ** External collaborators

    The SIMD functions live in crc-pclmul-template.S and the scalar CRC in
    lib/crc*.c; both are outside the embedded files.  [simd f] is the
    function computed by entry point [f]; [crc_byte] is the scalar update
    for one byte of the CRC family at hand. *)
Class CrcFamily : Type := {
  crc_byte : crc_t -> byte -> crc_t;
  simd : crc_func -> crc_t -> list byte -> N -> list Z -> crc_t
}.

Record crc_pclmul_consts : Type := {
  fold_across_128_bits_consts : list Z
}.

Section Glue.

Context {F : CrcFamily}.

(** [static_call(prefix##_pclmul)(crc, p, len, consts_ptr)]: enter whatever
    function the slot holds.  "The SIMD functions require len >= 16" and
    they use the vector registers, so entering one with a shorter input or
    outside a kernel-FPU section is a fault. *)
Definition static_call (crc : crc_t) (p : list byte) (len : N)
    (consts_ptr : list Z) : M crc_t :=
  fun s =>
    if negb (in_kernel_fpu s) then inl FaultFpuNotHeld
    else if len <? 16 then inl FaultShortInput
    else inr (simd (pclmul_target s) crc p len consts_ptr,
              emit (EvStaticCall (pclmul_target s) len) s).

(** [INIT_CRC_PCLMUL(prefix)] *)
Definition INIT_CRC_PCLMUL (c : platform) : M unit :=
  if IS_ENABLED (CONFIG_AS_VPCLMULQDQ c) &&
     boot_cpu_has c X86_FEATURE_VPCLMULQDQ &&
     boot_cpu_has c X86_FEATURE_AVX2 &&
     cpu_has_xfeatures c XFEATURE_MASK_YMM
  then
    if boot_cpu_has c X86_FEATURE_AVX512BW &&
       boot_cpu_has c X86_FEATURE_AVX512VL &&
       cpu_has_xfeatures c XFEATURE_MASK_AVX512
    then
      if boot_cpu_has c X86_FEATURE_PREFER_YMM
      then static_call_update vpclmul_avx10_256
      else static_call_update vpclmul_avx10_512
    else
      static_call_update vpclmul_avx2
  else
    ret tt.

(** The length below which the macro does not try the SIMD code. *)
Definition threshold (is_fallback_sliced : bool) : N :=
  if is_fallback_sliced then 64 else 16.

(** [CRC_PCLMUL(crc, p, len, prefix, consts, have_pclmulqdq,
    is_fallback_sliced)].  The macro either executes [return crc] with the
    SIMD result ([Some]) or falls through to the statement after it
    ([None]).  The three tests are evaluated left to right with [&&]. *)
Definition CRC_PCLMUL (crc : crc_t) (p : list byte) (len : N)
    (consts : crc_pclmul_consts) (have_pclmulqdq is_fallback_sliced : bool)
  : M (option crc_t) :=
  if threshold is_fallback_sliced <=? len then
    if have_pclmulqdq then
      usable <- crypto_simd_usable ;;
      if (usable : bool) then
        let consts_ptr := fold_across_128_bits_consts consts in
        kernel_fpu_begin ;;
        crc' <- static_call crc p len consts_ptr ;;
        kernel_fpu_end ;;
        ret (Some crc')
      else ret None
    else ret None
  else ret None.

(** Modelled from the spec: the scalar fallback ("byte-at-a-time ... scalar
    fallback CRC algorithms", an external collaborator) is missing from the
    embedded files.  It consumes the first [len] bytes at [p] one at a time;
    a slice-by-8 fallback computes the same function faster. *)
Definition crc_fallback (crc : crc_t) (p : list byte) (len : N) : crc_t :=
  fold_left crc_byte (firstn (N.to_nat len) p) crc.

(** Modelled from the spec: the function that expands [CRC_PCLMUL] (the
    "Dispatch Entry Point") is missing from the embedded files.  Per the
    spec, "if any condition fails, compute the result via the scalar
    fallback and return it directly"; otherwise the macro has returned. *)
Definition dispatch (crc : crc_t) (p : list byte) (len : N)
    (consts : crc_pclmul_consts) (have_pclmulqdq is_fallback_sliced : bool)
  : M crc_t :=
  r <- CRC_PCLMUL crc p len consts have_pclmulqdq is_fallback_sliced ;;
  match r with
  | Some crc' => ret crc'
  | None => ret (crc_fallback crc p len)
  end.

(** ** A process lifetime *)

Record crc_call : Type := {
  call_crc : crc_t;
  call_p : list byte;
  call_len : N;
  call_ctx_ok : bool    (* kind of context the caller runs in *)
}.

Definition enter_context (b : bool) : M unit :=
  fun s => inr (tt, set_context b s).

Fixpoint serve (consts : crc_pclmul_consts)
    (have_pclmulqdq is_fallback_sliced : bool) (calls : list crc_call)
  : M (list crc_t) :=
  match calls with
  | [] => ret []
  | c :: rest =>
      enter_context (call_ctx_ok c) ;;
      r <- dispatch (call_crc c) (call_p c) (call_len c) consts
             have_pclmulqdq is_fallback_sliced ;;
      rs <- serve consts have_pclmulqdq is_fallback_sliced rest ;;
      ret (r :: rs)
  end.

(** Modelled from the spec: the module init code that expands
    [INIT_CRC_PCLMUL] is missing from the embedded files.  Per the spec the
    initialization hook runs "exactly once before dispatch is reachable by
    any other caller"; afterwards any number of calls are served. *)
Definition lifetime (c : platform) (consts : crc_pclmul_consts)
    (have_pclmulqdq is_fallback_sliced : bool) (calls : list crc_call)
  : M (list crc_t) :=
  INIT_CRC_PCLMUL c ;;
  serve consts have_pclmulqdq is_fallback_sliced calls.

End Glue.

(** ** Observations on logs *)

Definition is_slot_write (e : event) : bool :=
  match e with EvStaticCallUpdate _ => true | _ => false end.

Definition slot_writes (l : list event) : nat :=
  List.length (filter is_slot_write l).

(** The events a run added to the log. *)
Definition events_since (s s' : kstate) : list event :=
  skipn (List.length (klog s)) (klog s').

(** A monitor for the scope-guard discipline: starting from "held = h", the
    log is well scoped when begin/end alternate and every SIMD call happens
    while the register file is held.  The result is the final "held". *)
Fixpoint fpu_monitor (held : bool) (l : list event) : option bool :=
  match l with
  | [] => Some held
  | EvKernelFpuBegin :: l' => if held then None else fpu_monitor true l'
  | EvKernelFpuEnd :: l' => if held then fpu_monitor false l' else None
  | EvStaticCall _ _ :: l' => if held then fpu_monitor held l' else None
  | EvStaticCallUpdate _ :: l' => fpu_monitor held l'
  end.

Definition call_len_ok (e : event) : bool :=
  match e with
  | EvStaticCall _ len => 16 <=? len
  | _ => true
  end.

(** ** The decision table in the words of the specification *)

Inductive ImplementationVariant : Type :=
| Baseline
| Accelerated_Wide1
| Accelerated_Wide2_Narrow
| Accelerated_Wide2_Wide.

Record FeatureSet : Type := {
  carry_less_multiply : bool;   (* carry-less-multiply support *)
  wide_vector : bool;           (* the base wide vector extension *)
  wide_vector_os : bool;        (* OS-level context support for it *)
  widest_vector : bool;         (* the widest vector extension *)
  widest_vector_os : bool;      (* its OS-level context support *)
  prefer_narrower : bool        (* the "prefer narrower vectors" hint *)
}.

(** Section 4.1 of the spec, read literally. *)
Definition probe (f : FeatureSet) : ImplementationVariant :=
  if carry_less_multiply f && wide_vector f && wide_vector_os f then
    if widest_vector f && widest_vector_os f then
      if prefer_narrower f then Accelerated_Wide2_Narrow
      else Accelerated_Wide2_Wide
    else Accelerated_Wide1
  else Baseline.

(** How the spec's vocabulary maps onto the flags the macro reads. *)
Definition feature_set_of (c : platform) : FeatureSet :=
  {| carry_less_multiply :=
       IS_ENABLED (CONFIG_AS_VPCLMULQDQ c) &&
       boot_cpu_has c X86_FEATURE_VPCLMULQDQ;
     wide_vector := boot_cpu_has c X86_FEATURE_AVX2;
     wide_vector_os := cpu_has_xfeatures c XFEATURE_MASK_YMM;
     widest_vector :=
       boot_cpu_has c X86_FEATURE_AVX512BW &&
       boot_cpu_has c X86_FEATURE_AVX512VL;
     widest_vector_os := cpu_has_xfeatures c XFEATURE_MASK_AVX512;
     prefer_narrower := boot_cpu_has c X86_FEATURE_PREFER_YMM |}.

Definition variant_of (f : crc_func) : ImplementationVariant :=
  match f with
  | pclmul_sse => Baseline
  | vpclmul_avx2 => Accelerated_Wide1
  | vpclmul_avx10_256 => Accelerated_Wide2_Narrow
  | vpclmul_avx10_512 => Accelerated_Wide2_Wide
  end.

(** The slot a machine ends up with after boot-time initialization. *)
Definition slot_after_init (c : platform) (s : kstate) : option crc_func :=
  match INIT_CRC_PCLMUL c s with
  | inr (_, s') => Some (pclmul_target s')
  | inl _ => None
  end.

Definition func_of (v : ImplementationVariant) : crc_func :=
  match v with
  | Baseline => pclmul_sse
  | Accelerated_Wide1 => vpclmul_avx2
  | Accelerated_Wide2_Narrow => vpclmul_avx10_256
  | Accelerated_Wide2_Wide => vpclmul_avx10_512
  end.

(** The three conditions of the threshold gate (spec section 4.3). *)
Definition gate_open (have_pclmulqdq is_fallback_sliced : bool) (len : N)
    (s : kstate) : bool :=
  have_pclmulqdq && simd_usable s && (threshold is_fallback_sliced <=? len).

(** The state in which the accelerated block of [CRC_PCLMUL] leaves the
    machine when entered in state [s]. *)
Definition accel_done (s : kstate) (len : N) : kstate :=
  {| pclmul_target := pclmul_target s;
     in_kernel_fpu := false;
     fpu_context_ok := fpu_context_ok s;
     klog := klog s ++
             [EvKernelFpuBegin; EvStaticCall (pclmul_target s) len;
              EvKernelFpuEnd] |}.

(** ** A concrete family: bitwise CRC-32 (reflected, 0xEDB88320) *)

Definition crc32_bit (c : Z) : Z :=
  if Z.odd c then Z.lxor (Z.shiftr c 1) 0xEDB88320 else Z.shiftr c 1.

Definition crc32_byte (crc : crc_t) (b : byte) : crc_t :=
  let c := Z.lxor crc (Z.of_N (Byte.to_N b)) in
  crc32_bit (crc32_bit (crc32_bit (crc32_bit
    (crc32_bit (crc32_bit (crc32_bit (crc32_bit c))))))).

(** SIMD functions that meet their contract by construction. *)
Definition crc32_family : CrcFamily :=
  {| crc_byte := crc32_byte;
     simd := fun _ crc p len _ =>
       fold_left crc32_byte (firstn (N.to_nat len) p) crc |}.

Definition check_bytes : list byte :=
  list_byte_of_string "123456789abcdefg".

Definition no_consts : crc_pclmul_consts :=
  {| fold_across_128_bits_consts := [] |}.

Definition mk_platform (cfg vp avx2 ymm bw vl zmm pref : bool) : platform :=
  {| CONFIG_AS_VPCLMULQDQ := cfg;
     cap_vpclmulqdq := vp;
     cap_avx2 := avx2;
     cap_avx512bw := bw;
     cap_avx512vl := vl;
     cap_prefer_ymm := pref;
     xstate_ymm := ymm;
     xstate_avx512 := zmm |}.

End CrcPclmul.

(* ===================================================================== *)
(** * Part II.  Definitions: x3d_vcache.c                                 *)
(* ===================================================================== *)

Module X3dVcache.

Local Open Scope Z_scope.

(** ** C integer types used by the sysfs callbacks (LP64) *)

Definition to_size_t (z : Z) : Z := z mod 2 ^ 64.

Definition to_ssize_t (z : Z) : Z := (z + 2 ^ 63) mod 2 ^ 64 - 2 ^ 63.

Definition SSIZE_MAX : Z := 2 ^ 63 - 1.

Definition EINVAL : Z := 22.

Definition DSM_REVISION_ID : Z := 0.
Definition DSM_GET_FUNCS_SUPPORTED : Z := 0.
Definition DSM_SET_X3D_MODE : Z := 1.

(** [enum amd_x3d_mode_type] *)
Definition MODE_INDEX_FREQ : Z := 0.
Definition MODE_INDEX_CACHE : Z := 1.

Definition amd_x3d_mode_strings : list string :=
  ["frequency"%string; "cache"%string].

(** ** ACPI *)

Inductive acpi_object : Type :=
| ACPI_TYPE_INTEGER (value : Z)
| ACPI_TYPE_BUFFER (bytes : list Z)
| ACPI_TYPE_OTHER.

(** What the firmware behind a handle answers to
    [acpi_evaluate_dsm(handle, &x3d_guid, rev, func, argv)]: a freshly
    allocated object, or [None] for a NULL return. *)
Definition acpi_handle : Type :=
  Z -> Z -> option acpi_object -> option acpi_object.

Definition acpi_evaluate_dsm (h : acpi_handle) (rev func : Z)
    (argv : option acpi_object) : option acpi_object :=
  h rev func argv.

Record amd_x3d_dev : Type := {
  ahandle : acpi_handle;
  curr_mode : Z
}.

Definition set_curr_mode (m : Z) (data : amd_x3d_dev) : amd_x3d_dev :=
  {| ahandle := ahandle data; curr_mode := m |}.

(** ** String helpers of lib/string.c, which is outside the embedded file

    A [string] stands for the characters of a NUL-terminated C string.
    [sysfs_streq] treats one trailing newline as the end of the string;
    [sysfs_match_string] returns the index of the first table entry equal
    to the input in that sense, or [-EINVAL]. *)

Definition newline : ascii := "010"%char.

Definition streq_rest (s1 s2 : string) : bool :=
  match s1, s2 with
  | EmptyString, EmptyString => true
  | EmptyString, String c EmptyString => Ascii.eqb c newline
  | String c EmptyString, EmptyString => Ascii.eqb c newline
  | _, _ => false
  end.

Fixpoint sysfs_streq (s1 s2 : string) : bool :=
  match s1, s2 with
  | String c1 r1, String c2 r2 =>
      if Ascii.eqb c1 c2 then sysfs_streq r1 r2 else streq_rest s1 s2
  | _, _ => streq_rest s1 s2
  end.

Fixpoint match_from (index : Z) (array : list string) (str : string) : Z :=
  match array with
  | [] => - EINVAL
  | item :: rest =>
      if sysfs_streq item str then index
      else match_from (index + 1) rest str
  end.

Definition sysfs_match_string (array : list string) (str : string) : Z :=
  match_from 0 array str.

(** [sysfs_emit(buf, "%s\n", s)]: what is written to [buf] and the number
    of characters written (the strings here are far below PAGE_SIZE). *)
Definition sysfs_emit_line (s : string) : Z * option string :=
  let out := String.append s (String newline EmptyString) in
  (Z.of_nat (String.length out), Some out).

(** ** The driver functions

    [guard(mutex)(&data->lock)] brackets the body of
    [amd_x3d_mode_switch]; with one caller at a time it has no effect on
    the values computed, and the [dev_err] messages are not modelled. *)

Definition amd_x3d_mode_switch (data : amd_x3d_dev) (new_state : Z)
  : Z * amd_x3d_dev :=
  let argv := ACPI_TYPE_INTEGER new_state in
  match acpi_evaluate_dsm (ahandle data) DSM_REVISION_ID DSM_SET_X3D_MODE
          (Some argv) with
  | None => (- EINVAL, data)
  | Some _ => (0, set_curr_mode new_state data)
  end.

(** [ret ? ret : count] is computed in [size_t] and converted to the
    [ssize_t] return type. *)
Definition amd_x3d_mode_store (data : amd_x3d_dev) (buf : string) (count : Z)
  : Z * amd_x3d_dev :=
  let ret := sysfs_match_string amd_x3d_mode_strings buf in
  if ret <? 0 then (ret, data)
  else
    let '(ret, data') := amd_x3d_mode_switch data ret in
    (to_ssize_t (if ret =? 0 then to_size_t count else to_size_t ret), data').

Definition amd_x3d_mode_show (data : amd_x3d_dev) : Z * option string :=
  if (curr_mode data >? MODE_INDEX_CACHE) || (curr_mode data <? MODE_INDEX_FREQ)
  then (- EINVAL, None)
  else sysfs_emit_line
         (nth (Z.to_nat (curr_mode data)) amd_x3d_mode_strings EmptyString).

(** ** Sample firmware and device *)

Definition fw_accepts : acpi_handle := fun _ _ _ => Some (ACPI_TYPE_INTEGER 0).

Definition fw_rejects : acpi_handle := fun _ _ _ => None.

Definition sample_dev (h : acpi_handle) (m : Z) : amd_x3d_dev :=
  {| ahandle := h; curr_mode := m |}.

(** ** Probing

    The rest of the driver: [amd_x3d_supported], [amd_x3d_remove] and
    [amd_x3d_probe].  A [platform_device] records what the environment of
    one probe call answers: the ACPI companion handle, whether the ACPI id
    table matches, whether the allocation succeeds and what
    [devm_add_action] returns. *)

Definition ENODEV : Z := 19.
Definition ENOMEM : Z := 12.

Definition ARRAY_SIZE {A : Type} (a : list A) : nat := List.length a.

(** [match_string] of lib/string.c compares with [strcmp]: the first of the
    [n] entries equal to the input, or [-EINVAL]. *)
Fixpoint match_string_from (index : Z) (array : list string) (n : nat)
    (str : string) : Z :=
  match n, array with
  | S n', item :: rest =>
      if String.eqb item str then index
      else match_string_from (index + 1) rest n' str
  | _, _ => - EINVAL
  end.

Definition match_string (array : list string) (n : nat) (str : string) : Z :=
  match_string_from 0 array n str.

Definition amd_x3d_supported (data : amd_x3d_dev) : Z :=
  match acpi_evaluate_dsm (ahandle data) DSM_REVISION_ID
          DSM_GET_FUNCS_SUPPORTED None with
  | None => - ENODEV
  | Some (ACPI_TYPE_BUFFER _) => 0
  | Some _ => - EINVAL
  end.

Inductive probe_event : Type :=
| PeErrProbe (err : Z)     (* a dev_err_probe() call and its error code *)
| PeMutexInit
| PeMutexDestroy.

Record platform_device : Type := {
  ACPI_HANDLE : option acpi_handle;
  acpi_match_device : bool;
  devm_kzalloc : bool;
  devm_add_action : Z
}.

Record probe_result : Type := {
  probe_ret : Z;
  probe_drvdata : option amd_x3d_dev;
  probe_log : list probe_event
}.

Definition amd_x3d_remove (log : list probe_event) : list probe_event :=
  log ++ [PeMutexDestroy].

(** [devm_add_action_or_reset]: register the action; if that fails, run it
    at once and return the error. *)
Definition devm_add_action_or_reset (pdev : platform_device)
    (log : list probe_event) : Z * list probe_event :=
  let ret := devm_add_action pdev in
  if ret =? 0 then (ret, log) else (ret, amd_x3d_remove log).

(** [amd_x3d_probe].  The two [dev_err_probe] calls whose value is not
    returned only log; [devm_kzalloc] hands out zeroed memory, so
    [curr_mode] starts as [MODE_INDEX_FREQ]. *)
Definition amd_x3d_probe (x3d_mode : string) (pdev : platform_device)
  : probe_result :=
  match ACPI_HANDLE pdev with
  | None =>
      {| probe_ret := - ENODEV; probe_drvdata := None; probe_log := [] |}
  | Some handle =>
      let log :=
        if acpi_match_device pdev then [] else [PeErrProbe (- ENODEV)] in
      if negb (devm_kzalloc pdev) then
        {| probe_ret := - ENOMEM; probe_drvdata := None; probe_log := log |}
      else
        let data := {| ahandle := handle; curr_mode := 0 |} in
        let ret := amd_x3d_supported data in
        let log := if ret =? 0 then log else log ++ [PeErrProbe ret] in
        let ret :=
          match_string amd_x3d_mode_strings (ARRAY_SIZE amd_x3d_mode_strings)
            x3d_mode in
        if ret <? 0 then
          {| probe_ret := - EINVAL; probe_drvdata := Some data;
             probe_log := log ++ [PeErrProbe (- EINVAL)] |}
        else
          let log := log ++ [PeMutexInit] in
          let '(ret, data) := amd_x3d_mode_switch data ret in
          if ret <? 0 then
            {| probe_ret := ret; probe_drvdata := Some data;
               probe_log := log |}
          else
            let '(ret, log) := devm_add_action_or_reset pdev log in
            {| probe_ret := ret; probe_drvdata := Some data;
               probe_log := log |}
  end.

(** The default value of the module parameter. *)
Definition x3d_mode_default : string := "frequency"%string.

(** ** Sequences of writes to the attribute

    Each write finds the firmware in some state, so an operation carries the
    answers the firmware gives at that time. *)
Record store_op : Type := {
  op_fw : acpi_handle;
  op_buf : string;
  op_count : Z
}.

Definition with_handle (h : acpi_handle) (data : amd_x3d_dev) : amd_x3d_dev :=
  {| ahandle := h; curr_mode := curr_mode data |}.

Definition amd_x3d_apply (data : amd_x3d_dev) (op : store_op)
  : Z * amd_x3d_dev :=
  amd_x3d_mode_store (with_handle (op_fw op) data) (op_buf op) (op_count op).

Fixpoint amd_x3d_stores (data : amd_x3d_dev) (ops : list store_op)
  : amd_x3d_dev :=
  match ops with
  | [] => data
  | op :: rest => amd_x3d_stores (snd (amd_x3d_apply data op)) rest
  end.

Definition mode_valid (data : amd_x3d_dev) : bool :=
  (MODE_INDEX_FREQ <=? curr_mode data) && (curr_mode data <=? MODE_INDEX_CACHE).

Fixpoint no_newline (s : string) : bool :=
  match s with
  | EmptyString => true
  | String c r => negb (Ascii.eqb c newline) && no_newline r
  end.

Definition line (s : string) : string :=
  String.append s (String newline EmptyString).

(** Firmware that answers function 0 with a buffer and accepts every mode,
    and a device node for it. *)
Definition fw_full : acpi_handle :=
  fun _ func _ =>
    if func =? DSM_GET_FUNCS_SUPPORTED then Some (ACPI_TYPE_BUFFER [3])
    else Some (ACPI_TYPE_INTEGER 0).

Definition sample_pdev (h : option acpi_handle) (id alloc : bool) (devm : Z)
  : platform_device :=
  {| ACPI_HANDLE := h; acpi_match_device := id; devm_kzalloc := alloc;
     devm_add_action := devm |}.

(** Firmware that does not answer function 0 but accepts every mode. *)
Definition fw_no_funcs : acpi_handle :=
  fun _ func _ =>
    if func =? DSM_GET_FUNCS_SUPPORTED then None
    else Some (ACPI_TYPE_INTEGER 0).

End X3dVcache.

(* ===================================================================== *)
(** * Part III.  Properties of the CRC glue                               *)
(* ===================================================================== *)

Module CrcPclmulFacts.

Import CrcPclmul.
Local Open Scope N_scope.

Lemma threshold_ge_16 (is_fallback_sliced : bool) :
  16 <= threshold is_fallback_sliced.
Proof. destruct is_fallback_sliced; unfold threshold; lia. Qed.

Lemma threshold_values : threshold true = 64 /\ threshold false = 16.
Proof. split; reflexivity. Qed.

(** The sample family is the usual CRC-32: the check value of "123456789"
    is 0xCBF43926. *)
Example crc32_check_value :
  Z.lxor (@crc_fallback crc32_family 0xFFFFFFFF%Z
            (list_byte_of_string "123456789") 9) 0xFFFFFFFF%Z
  = 0xCBF43926%Z.
Proof. vm_compute. reflexivity. Qed.

Lemma events_since_app (s s' : kstate) (tr : list event) :
  klog s' = klog s ++ tr -> events_since s s' = tr.
Proof.
  unfold events_since. intros ->.
  induction (klog s) as [|e l IH]; simpl; [reflexivity | exact IH].
Qed.

Lemma events_since_refl (s : kstate) : events_since s s = [].
Proof. apply events_since_app. now rewrite app_nil_r. Qed.

Lemma events_since_accel (s : kstate) (len : N) :
  events_since s (accel_done s len) =
  [EvKernelFpuBegin; EvStaticCall (pclmul_target s) len; EvKernelFpuEnd].
Proof. now apply events_since_app. Qed.

Lemma slot_writes_app (l1 l2 : list event) :
  slot_writes (l1 ++ l2) = (slot_writes l1 + slot_writes l2)%nat.
Proof. unfold slot_writes. now rewrite filter_app, length_app. Qed.

Lemma gate_open_iff have sliced len s :
  gate_open have sliced len s = true <->
  have = true /\ simd_usable s = true /\ threshold sliced <= len.
Proof.
  unfold gate_open. rewrite !andb_true_iff, N.leb_le. tauto.
Qed.

Section Runs.

Context {F : CrcFamily}.

(** The whole behaviour of the macro, in closed form. *)
Lemma CRC_PCLMUL_run crc p len consts have sliced s :
  CRC_PCLMUL crc p len consts have sliced s =
  if gate_open have sliced len s
  then inr (Some (simd (pclmul_target s) crc p len
                    (fold_across_128_bits_consts consts)),
            accel_done s len)
  else inr (None, s).
Proof.
  unfold CRC_PCLMUL, gate_open.
  destruct (threshold sliced <=? len) eqn:Hlen;
    [| now rewrite andb_false_r].
  destruct have; [| reflexivity].
  unfold bind, crypto_simd_usable.
  destruct (simd_usable s) eqn:Hus; [| reflexivity].
  simpl. unfold kernel_fpu_begin. rewrite Hus.
  unfold static_call. simpl.
  assert (Hlt : (len <? 16) = false).
  { apply N.ltb_ge. apply N.leb_le in Hlen.
    pose proof (threshold_ge_16 sliced). lia. }
  rewrite Hlt. simpl. unfold accel_done, emit, set_in_kernel_fpu. simpl.
  now rewrite <- !app_assoc.
Qed.

Lemma dispatch_run crc p len consts have sliced s :
  dispatch crc p len consts have sliced s =
  if gate_open have sliced len s
  then inr (simd (pclmul_target s) crc p len
              (fold_across_128_bits_consts consts),
            accel_done s len)
  else inr (crc_fallback crc p len, s).
Proof.
  unfold dispatch, bind. rewrite CRC_PCLMUL_run.
  now destruct (gate_open have sliced len s).
Qed.

End Runs.

(** What [INIT_CRC_PCLMUL] does, in terms of the decision table. *)
Lemma INIT_CRC_PCLMUL_run (c : platform) (s : kstate) :
  INIT_CRC_PCLMUL c s =
  match probe (feature_set_of c) with
  | Baseline => inr (tt, s)
  | v => inr (tt, emit (EvStaticCallUpdate (func_of v))
                    (set_target (func_of v) s))
  end.
Proof.
  destruct c as [cfg vp avx2 bw vl pref ymm zmm].
  unfold INIT_CRC_PCLMUL, probe, feature_set_of, IS_ENABLED; simpl.
  destruct cfg, vp, avx2, ymm; simpl; try reflexivity.
  destruct bw, vl, zmm; simpl; try reflexivity.
  destruct pref; reflexivity.
Qed.

Lemma feature_set_of_onto (f : FeatureSet) :
  exists c, feature_set_of c = f.
Proof.
  destruct f as [cl w wo x xo n].
  exists (mk_platform true cl w wo x true xo n).
  unfold feature_set_of, mk_platform, IS_ENABLED; simpl.
  now rewrite andb_true_r.
Qed.

(** C1.  For every combination of the flags read at initialization, the
    slot left by [INIT_CRC_PCLMUL] is the one the ordered decision table
    of the specification selects: a wide variant replaces the slot, and
    otherwise the slot is kept, which at boot means Baseline.  Here
    carry-less-multiply support is VPCLMULQDQ in both the assembler and
    the CPU, and the widest extension is AVX512BW together with AVX512VL.
    The four named feature sets give Baseline, Accelerated-Wide1,
    Accelerated-Wide2-Narrow and Accelerated-Wide2-Wide. *)
Theorem INIT_CRC_PCLMUL_decision_table :
  (forall c s,
     slot_after_init c s =
     Some (match probe (feature_set_of c) with
           | Baseline => pclmul_target s
           | v => func_of v
           end))
  /\ (forall c ctx,
        option_map variant_of (slot_after_init c (boot_state ctx)) =
        Some (probe (feature_set_of c)))
  /\ (forall f : FeatureSet, exists c, feature_set_of c = f)
  /\ (forall cfg avx2 ymm bw vl zmm pref ctx,
        option_map variant_of
          (slot_after_init (mk_platform cfg false avx2 ymm bw vl zmm pref)
             (boot_state ctx)) = Some Baseline)
  /\ (forall pref ctx,
        option_map variant_of
          (slot_after_init
             (mk_platform true true true true false false false pref)
             (boot_state ctx)) = Some Accelerated_Wide1)
  /\ (forall ctx,
        option_map variant_of
          (slot_after_init
             (mk_platform true true true true true true true true)
             (boot_state ctx)) = Some Accelerated_Wide2_Narrow)
  /\ (forall ctx,
        option_map variant_of
          (slot_after_init
             (mk_platform true true true true true true true false)
             (boot_state ctx)) = Some Accelerated_Wide2_Wide).
Proof.
  assert (Hgen : forall c s,
     slot_after_init c s =
     Some (match probe (feature_set_of c) with
           | Baseline => pclmul_target s
           | v => func_of v
           end)).
  { intros c s. unfold slot_after_init. rewrite INIT_CRC_PCLMUL_run.
    destruct (probe (feature_set_of c)); reflexivity. }
  split; [exact Hgen |].
  split.
  { intros c ctx. rewrite Hgen.
    destruct (probe (feature_set_of c)); reflexivity. }
  split; [exact feature_set_of_onto |].
  split.
  { intros. rewrite Hgen.
    unfold probe, feature_set_of, mk_platform, IS_ENABLED; simpl.
    now rewrite andb_false_r. }
  split; [| split]; intros; rewrite Hgen; reflexivity.
Qed.

(** C2.  Provided the SIMD functions compute, on valid inputs of at least
    16 bytes, the same CRC as the scalar fallback, [dispatch] returns
    exactly the fallback's result for every accumulator, buffer and length
    (0 included), whatever the slot holds and whichever path is taken. *)
Theorem dispatch_equals_fallback (F : CrcFamily) (consts : crc_pclmul_consts)
    (simd_contract :
       forall f crc p len,
         16 <= len -> len <= N.of_nat (List.length p) ->
         simd f crc p len (fold_across_128_bits_consts consts) =
         crc_fallback crc p len)
    (A : crc_t) (B : list byte) (len : N)
    (have_pclmulqdq is_fallback_sliced : bool) (s : kstate)
    (Hvalid : len <= N.of_nat (List.length B)) :
  exists s',
    dispatch A B len consts have_pclmulqdq is_fallback_sliced s =
    inr (crc_fallback A B len, s').
Proof.
  rewrite dispatch_run.
  destruct (gate_open have_pclmulqdq is_fallback_sliced len s) eqn:Hgate.
  - apply gate_open_iff in Hgate. destruct Hgate as (_ & _ & Hlen).
    pose proof (threshold_ge_16 is_fallback_sliced) as Hthr.
    exists (accel_done s len). rewrite simd_contract; [reflexivity | lia | exact Hvalid].
  - exists s. reflexivity.
Qed.

Lemma dispatch_equals_fallback_witness :
  (forall f crc p len,
     16 <= len -> len <= N.of_nat (List.length p) ->
     @simd crc32_family f crc p len (fold_across_128_bits_consts no_consts) =
     @crc_fallback crc32_family crc p len)
  /\ 16 <= N.of_nat (List.length check_bytes)
  /\ exists s',
       @dispatch crc32_family 0xFFFFFFFF%Z check_bytes 16 no_consts true false
         (boot_state true) =
       inr (@crc_fallback crc32_family 0xFFFFFFFF%Z check_bytes 16, s').
Proof.
  assert (Hk : forall f crc p len,
     16 <= len -> len <= N.of_nat (List.length p) ->
     @simd crc32_family f crc p len (fold_across_128_bits_consts no_consts) =
     @crc_fallback crc32_family crc p len) by (intros; reflexivity).
  assert (Hv : 16 <= N.of_nat (List.length check_bytes))
    by (vm_compute; discriminate).
  split; [exact Hk |]. split; [exact Hv |].
  exact (dispatch_equals_fallback crc32_family no_consts Hk
           0xFFFFFFFF%Z check_bytes 16 true false (boot_state true) Hv).
Defined.

(** C3.  The accelerated block of [CRC_PCLMUL] is entered (the macro
    returns the value of the function in the slot) if and only if the
    feature flag is set, the context may use SIMD and
    [len >= threshold], where the threshold is 64 for a sliced fallback
    and 16 for a byte-at-a-time one.  If a condition fails the macro
    falls through without touching the state and the scalar fallback
    computes the result.  Boundaries: 15/16 (naive), 63/64 (sliced). *)
Theorem CRC_PCLMUL_gate (F : CrcFamily) (crc : crc_t) (p : list byte)
    (len : N) (consts : crc_pclmul_consts)
    (have_pclmulqdq is_fallback_sliced : bool) (s : kstate) :
  let conds :=
    have_pclmulqdq = true /\ simd_usable s = true /\
    threshold is_fallback_sliced <= len in
  let accelerated have sliced n :=
    CRC_PCLMUL crc p n consts have sliced s =
    inr (Some (simd (pclmul_target s) crc p n
                 (fold_across_128_bits_consts consts)),
         accel_done s n) in
  let falls_back have sliced n :=
    CRC_PCLMUL crc p n consts have sliced s = inr (None, s) /\
    dispatch crc p n consts have sliced s = inr (crc_fallback crc p n, s) in
  ((exists r s',
      CRC_PCLMUL crc p len consts have_pclmulqdq is_fallback_sliced s =
      inr (Some r, s')) <-> conds)
  /\ (conds -> accelerated have_pclmulqdq is_fallback_sliced len)
  /\ (~ conds -> falls_back have_pclmulqdq is_fallback_sliced len)
  /\ threshold true = 64 /\ threshold false = 16
  /\ falls_back have_pclmulqdq false 15
  /\ (simd_usable s = true -> accelerated true false 16)
  /\ falls_back have_pclmulqdq true 63
  /\ (simd_usable s = true -> accelerated true true 64).
Proof.
  cbv zeta.
  assert (Hopen : forall have sliced n,
            gate_open have sliced n s = true ->
            CRC_PCLMUL crc p n consts have sliced s =
            inr (Some (simd (pclmul_target s) crc p n
                         (fold_across_128_bits_consts consts)),
                 accel_done s n)).
  { intros have sliced n H. now rewrite CRC_PCLMUL_run, H. }
  assert (Hshut : forall have sliced n,
            gate_open have sliced n s = false ->
            CRC_PCLMUL crc p n consts have sliced s = inr (None, s) /\
            dispatch crc p n consts have sliced s =
            inr (crc_fallback crc p n, s)).
  { intros have sliced n H. now rewrite CRC_PCLMUL_run, dispatch_run, H. }
  repeat apply conj.
  - intros (r & s' & Hrun). apply gate_open_iff.
    rewrite CRC_PCLMUL_run in Hrun.
    destruct (gate_open have_pclmulqdq is_fallback_sliced len s);
      [reflexivity | discriminate].
  - intros H. apply gate_open_iff in H. rewrite (Hopen _ _ _ H). eauto.
  - intros H. apply Hopen. now apply gate_open_iff.
  - intros H. apply Hshut.
    destruct (gate_open have_pclmulqdq is_fallback_sliced len s) eqn:Hg;
      [| reflexivity].
    exfalso. apply H. now apply gate_open_iff.
  - reflexivity.
  - reflexivity.
  - apply Hshut. unfold gate_open. simpl. now rewrite andb_false_r.
  - apply Hshut. unfold gate_open. simpl. now rewrite andb_false_r.
  - intros H. apply Hopen. unfold gate_open. now rewrite H.
  - apply Hshut. unfold gate_open. simpl. now rewrite andb_false_r.
  - apply Hshut. unfold gate_open. simpl. now rewrite andb_false_r.
  - intros H. apply Hopen. unfold gate_open. now rewrite H.
Qed.

(** C4.  Whenever [CRC_PCLMUL] takes the accelerated path it executes
    exactly [kernel_fpu_begin()], the static call, [kernel_fpu_end()], in
    this order, and only then returns; there is no other exit from the
    block, so the release is unconditional.  When it falls through it
    has not acquired anything.  In both cases the events of the call obey
    the scope-guard discipline and end with the register file released. *)
Theorem CRC_PCLMUL_guard_scoped (F : CrcFamily) (crc : crc_t)
    (p : list byte) (len : N) (consts : crc_pclmul_consts)
    (have_pclmulqdq is_fallback_sliced : bool) (s : kstate) :
  exists r s',
    CRC_PCLMUL crc p len consts have_pclmulqdq is_fallback_sliced s =
    inr (r, s')
    /\ klog s' = klog s ++ events_since s s'
    /\ fpu_monitor false (events_since s s') = Some false
    /\ in_kernel_fpu s' = in_kernel_fpu s
    /\ match r with
       | Some _ =>
           events_since s s' =
           [EvKernelFpuBegin; EvStaticCall (pclmul_target s) len;
            EvKernelFpuEnd]
           /\ in_kernel_fpu s' = false
       | None => s' = s
       end.
Proof.
  rewrite CRC_PCLMUL_run.
  destruct (gate_open have_pclmulqdq is_fallback_sliced len s) eqn:Hgate.
  - apply gate_open_iff in Hgate. destruct Hgate as (_ & Hus & _).
    unfold simd_usable in Hus. apply andb_true_iff in Hus.
    destruct Hus as (_ & Hfree). apply negb_true_iff in Hfree.
    eexists; eexists; split; [reflexivity |].
    rewrite events_since_accel. simpl. now rewrite Hfree.
  - eexists; eexists; split; [reflexivity |].
    rewrite events_since_refl, app_nil_r. simpl. auto.
Qed.

(** C6.  [dispatch] never faults: on every input, zero length included,
    it returns an accumulator.  Missing hardware support and a context in
    which SIMD is not usable are not errors: in both cases nothing is
    acquired (the state is untouched, so [kernel_fpu_begin] was not
    attempted) and the scalar fallback's value is returned. *)
Theorem dispatch_total (F : CrcFamily) (crc : crc_t) (p : list byte)
    (len : N) (consts : crc_pclmul_consts)
    (have_pclmulqdq is_fallback_sliced : bool) (s : kstate) :
  (exists r s',
     dispatch crc p len consts have_pclmulqdq is_fallback_sliced s =
     inr (r, s'))
  /\ (exists r,
        dispatch crc p 0 consts have_pclmulqdq is_fallback_sliced s =
        inr (r, s))
  /\ (simd_usable s = false ->
      dispatch crc p len consts have_pclmulqdq is_fallback_sliced s =
      inr (crc_fallback crc p len, s))
  /\ (have_pclmulqdq = false ->
      dispatch crc p len consts have_pclmulqdq is_fallback_sliced s =
      inr (crc_fallback crc p len, s)).
Proof.
  rewrite !dispatch_run. repeat apply conj.
  - destruct (gate_open have_pclmulqdq is_fallback_sliced len s); eauto.
  - assert (H0 : gate_open have_pclmulqdq is_fallback_sliced 0 s = false).
    { unfold gate_open.
      destruct is_fallback_sliced; simpl; now rewrite andb_false_r. }
    rewrite H0. eauto.
  - intros H. unfold gate_open. rewrite H. now rewrite andb_false_r.
  - intros ->. reflexivity.
Qed.

(** C7.  On a zero-length buffer [dispatch] returns the accumulator it was
    given, for every accumulator and whatever the slot holds. *)
Theorem dispatch_empty (F : CrcFamily) (A : crc_t) (p : list byte)
    (consts : crc_pclmul_consts)
    (have_pclmulqdq is_fallback_sliced : bool) (s : kstate) :
  dispatch A p 0 consts have_pclmulqdq is_fallback_sliced s = inr (A, s)
  /\ dispatch A [] 0 consts have_pclmulqdq is_fallback_sliced s = inr (A, s).
Proof.
  assert (H0 : gate_open have_pclmulqdq is_fallback_sliced 0 s = false).
  { unfold gate_open.
    destruct is_fallback_sliced; simpl; now rewrite andb_false_r. }
  rewrite !dispatch_run, H0. split; reflexivity.
Qed.

(** C8.  [CRC_PCLMUL] never enters a SIMD function with fewer than 16
    bytes: every static call it logs has [len >= 16], because both
    thresholds (16 and 64) are at least 16; the run never ends in the
    short-input fault. *)
Theorem CRC_PCLMUL_len_ge_16 (F : CrcFamily) (crc : crc_t) (p : list byte)
    (len : N) (consts : crc_pclmul_consts)
    (have_pclmulqdq is_fallback_sliced : bool) (s : kstate) :
  16 <= threshold is_fallback_sliced
  /\ exists r s',
       CRC_PCLMUL crc p len consts have_pclmulqdq is_fallback_sliced s =
       inr (r, s')
       /\ forallb call_len_ok (events_since s s') = true
       /\ (forall f n, In (EvStaticCall f n) (events_since s s') ->
                       n = len /\ 16 <= n)
       /\ (r <> None -> 16 <= len).
Proof.
  split; [apply threshold_ge_16 |].
  rewrite CRC_PCLMUL_run.
  destruct (gate_open have_pclmulqdq is_fallback_sliced len s) eqn:Hgate.
  - apply gate_open_iff in Hgate. destruct Hgate as (_ & _ & Hlen).
    pose proof (threshold_ge_16 is_fallback_sliced) as Hthr.
    assert (H16 : 16 <= len) by lia.
    eexists; eexists; split; [reflexivity |].
    rewrite events_since_accel. repeat apply conj.
    + simpl. rewrite andb_true_r. now apply N.leb_le.
    + intros f n [Hin | [Hin | [Hin | []]]]; try discriminate.
      injection Hin as _ <-. now split.
    + intros _. exact H16.
  - eexists; eexists; split; [reflexivity |].
    rewrite events_since_refl. repeat apply conj.
    + reflexivity.
    + intros f n [].
    + intros H. now elim H.
Qed.

(** Serving calls only reads the slot: no call faults, changes the target
    or adds a slot write to the log. *)
Lemma serve_reads_slot (F : CrcFamily) (consts : crc_pclmul_consts)
    (have_pclmulqdq is_fallback_sliced : bool) (calls : list crc_call) :
  forall s,
    exists rs s',
      serve consts have_pclmulqdq is_fallback_sliced calls s = inr (rs, s')
      /\ List.length rs = List.length calls
      /\ pclmul_target s' = pclmul_target s
      /\ slot_writes (klog s') = slot_writes (klog s).
Proof.
  induction calls as [|c rest IH]; intros s.
  - exists [], s. now repeat split.
  - cbn [serve]. unfold bind at 1. unfold enter_context.
    unfold bind at 1. rewrite dispatch_run.
    set (s0 := set_context (call_ctx_ok c) s).
    destruct (gate_open have_pclmulqdq is_fallback_sliced (call_len c) s0).
    + destruct (IH (accel_done s0 (call_len c))) as (rs & s' & Hrun & Hn & Ht & Hw).
      unfold bind. rewrite Hrun. eexists; eexists; split; [reflexivity |].
      simpl. rewrite Hn, Ht, Hw. repeat split.
      unfold accel_done; simpl. rewrite slot_writes_app. simpl.
      unfold slot_writes at 2. simpl. lia.
    + destruct (IH s0) as (rs & s' & Hrun & Hn & Ht & Hw).
      unfold bind. rewrite Hrun. eexists; eexists; split; [reflexivity |].
      simpl. rewrite Hn, Ht, Hw. repeat split.
Qed.

(** C5, as stated, fails: on a machine without VPCLMULQDQ the
    initialization performs no [static_call_update] at all, so the slot is
    written zero times, not once, over the whole lifetime. *)
Lemma INIT_CRC_PCLMUL_baseline_writes_nothing :
  (exists s1,
     INIT_CRC_PCLMUL
       (mk_platform false false false false false false false false)
       (boot_state true) = inr (tt, s1)
     /\ slot_writes (klog s1) = 0%nat
     /\ slot_writes (klog s1) <> 1%nat)
  /\ (exists rs s2,
        @lifetime crc32_family
          (mk_platform false false false false false false false false)
          no_consts false false
          [ {| call_crc := 0%Z; call_p := check_bytes; call_len := 16;
               call_ctx_ok := true |} ]
          (boot_state true) = inr (rs, s2)
        /\ slot_writes (klog s2) <> 1%nat).
Proof.
  split.
  - exists (boot_state true). repeat split. discriminate.
  - eexists; eexists; split; [reflexivity |]. discriminate.
Qed.

(** C5, amended.  Before initialization the slot holds Baseline.
    Initialization writes the slot at most once: exactly once when the
    decision procedure selects a wide variant and not at all when it
    selects Baseline, which the slot already holds.  After initialization
    the slot holds exactly the selected implementation, and the calls
    served afterwards only read it: none changes the slot or writes it. *)
Theorem lifetime_slot_written_at_most_once (F : CrcFamily) (c : platform)
    (consts : crc_pclmul_consts) (have_pclmulqdq is_fallback_sliced : bool)
    (calls : list crc_call) (ctx : bool) :
  variant_of (pclmul_target (boot_state ctx)) = Baseline
  /\ exists s1,
       INIT_CRC_PCLMUL c (boot_state ctx) = inr (tt, s1)
       /\ variant_of (pclmul_target s1) = probe (feature_set_of c)
       /\ slot_writes (klog s1) =
          match probe (feature_set_of c) with
          | Baseline => 0%nat
          | _ => 1%nat
          end
       /\ (slot_writes (klog s1) <= 1)%nat
       /\ exists rs s2,
            serve consts have_pclmulqdq is_fallback_sliced calls s1 =
            inr (rs, s2)
            /\ lifetime c consts have_pclmulqdq is_fallback_sliced calls
                 (boot_state ctx) = inr (rs, s2)
            /\ pclmul_target s2 = pclmul_target s1
            /\ slot_writes (klog s2) = slot_writes (klog s1).
Proof.
  split; [reflexivity |].
  unfold lifetime, bind. rewrite INIT_CRC_PCLMUL_run.
  destruct (probe (feature_set_of c)) eqn:Hv;
    (eexists; split; [reflexivity |];
     split; [reflexivity |];
     split; [reflexivity |];
     split; [simpl; unfold slot_writes; simpl; lia |];
     match goal with
     | |- context [serve _ _ _ _ ?s1] =>
         destruct (serve_reads_slot F consts have_pclmulqdq
                     is_fallback_sliced calls s1)
           as (rs & s2 & Hrun & _ & Ht & Hw)
     end;
     exists rs, s2; rewrite Hrun; auto).
Qed.

(** ** Further properties of the two macros *)

(** The flags behind each outcome of the decision table. *)
Lemma probe_features (c : platform) :
  let outer :=
    IS_ENABLED (CONFIG_AS_VPCLMULQDQ c) &&
    boot_cpu_has c X86_FEATURE_VPCLMULQDQ &&
    boot_cpu_has c X86_FEATURE_AVX2 &&
    cpu_has_xfeatures c XFEATURE_MASK_YMM in
  let inner :=
    boot_cpu_has c X86_FEATURE_AVX512BW &&
    boot_cpu_has c X86_FEATURE_AVX512VL &&
    cpu_has_xfeatures c XFEATURE_MASK_AVX512 in
  match probe (feature_set_of c) with
  | Baseline => outer = false
  | Accelerated_Wide1 => outer = true /\ inner = false
  | Accelerated_Wide2_Narrow =>
      outer = true /\ inner = true /\
      boot_cpu_has c X86_FEATURE_PREFER_YMM = true
  | Accelerated_Wide2_Wide =>
      outer = true /\ inner = true /\
      boot_cpu_has c X86_FEATURE_PREFER_YMM = false
  end.
Proof.
  destruct c as [cfg vp avx2 bw vl pref ymm zmm].
  unfold probe, feature_set_of, IS_ENABLED; simpl.
  destruct cfg, vp, avx2, ymm; simpl; try reflexivity;
    destruct bw, vl, zmm; simpl; try (split; reflexivity);
    destruct pref; repeat split.
Qed.

(** X1.  [INIT_CRC_PCLMUL] only ever installs a function the machine can
    run: whenever it performs a [static_call_update], the function written
    is not the SSE default, the assembler and the CPU support VPCLMULQDQ,
    AVX2 and the YMM state are present, an AVX10 function additionally has
    AVX512BW, AVX512VL and the AVX-512 state, and the 512-bit one is never
    chosen on a CPU that prefers YMM. *)
Theorem INIT_CRC_PCLMUL_installs_supported (c : platform) (s s' : kstate)
    (f : crc_func)
    (Hrun : INIT_CRC_PCLMUL c s = inr (tt, s'))
    (Hin : In (EvStaticCallUpdate f) (events_since s s')) :
  pclmul_target s' = f
  /\ f <> pclmul_sse
  /\ IS_ENABLED (CONFIG_AS_VPCLMULQDQ c) = true
  /\ boot_cpu_has c X86_FEATURE_VPCLMULQDQ = true
  /\ boot_cpu_has c X86_FEATURE_AVX2 = true
  /\ cpu_has_xfeatures c XFEATURE_MASK_YMM = true
  /\ (f = vpclmul_avx10_256 \/ f = vpclmul_avx10_512 ->
      boot_cpu_has c X86_FEATURE_AVX512BW = true /\
      boot_cpu_has c X86_FEATURE_AVX512VL = true /\
      cpu_has_xfeatures c XFEATURE_MASK_AVX512 = true)
  /\ (f = vpclmul_avx10_512 ->
      boot_cpu_has c X86_FEATURE_PREFER_YMM = false)
  /\ (f = vpclmul_avx10_256 ->
      boot_cpu_has c X86_FEATURE_PREFER_YMM = true)
  /\ (f = vpclmul_avx2 ->
      boot_cpu_has c X86_FEATURE_AVX512BW &&
      boot_cpu_has c X86_FEATURE_AVX512VL &&
      cpu_has_xfeatures c XFEATURE_MASK_AVX512 = false).
Proof.
  rewrite INIT_CRC_PCLMUL_run in Hrun.
  pose proof (probe_features c) as Hflags. cbv zeta in Hflags.
  destruct (probe (feature_set_of c)); injection Hrun as <-.
  - rewrite events_since_refl in Hin. destruct Hin.
  - rewrite (events_since_app s _ [EvStaticCallUpdate (func_of Accelerated_Wide1)])
      in Hin by reflexivity.
    destruct Hin as [Hin | []]. injection Hin as <-.
    destruct Hflags as (Hout & Hinn).
    rewrite !andb_true_iff in Hout. destruct Hout as (((? & ?) & ?) & ?).
    simpl func_of. repeat apply conj; try assumption; try reflexivity;
      try discriminate.
    + intros [Hf | Hf]; discriminate.
    + intros _. exact Hinn.
  - rewrite (events_since_app s _
               [EvStaticCallUpdate (func_of Accelerated_Wide2_Narrow)])
      in Hin by reflexivity.
    destruct Hin as [Hin | []]. injection Hin as <-.
    destruct Hflags as (Hout & Hinn & Hpref).
    rewrite !andb_true_iff in Hout. destruct Hout as (((? & ?) & ?) & ?).
    rewrite !andb_true_iff in Hinn. destruct Hinn as ((? & ?) & ?).
    simpl func_of. repeat apply conj; try assumption; try reflexivity;
      try discriminate.
    all: intros _; first [assumption | now repeat split].
  - rewrite (events_since_app s _
               [EvStaticCallUpdate (func_of Accelerated_Wide2_Wide)])
      in Hin by reflexivity.
    destruct Hin as [Hin | []]. injection Hin as <-.
    destruct Hflags as (Hout & Hinn & Hpref).
    rewrite !andb_true_iff in Hout. destruct Hout as (((? & ?) & ?) & ?).
    rewrite !andb_true_iff in Hinn. destruct Hinn as ((? & ?) & ?).
    simpl func_of. repeat apply conj; try assumption; try reflexivity;
      try discriminate.
    all: intros _; first [assumption | now repeat split].
Qed.

Lemma INIT_CRC_PCLMUL_installs_supported_witness :
  INIT_CRC_PCLMUL (mk_platform true true true true true true true false)
    (boot_state true) =
  inr (tt, emit (EvStaticCallUpdate vpclmul_avx10_512)
             (set_target vpclmul_avx10_512 (boot_state true)))
  /\ In (EvStaticCallUpdate vpclmul_avx10_512)
        (events_since (boot_state true)
           (emit (EvStaticCallUpdate vpclmul_avx10_512)
              (set_target vpclmul_avx10_512 (boot_state true))))
  /\ vpclmul_avx10_512 <> pclmul_sse.
Proof.
  assert (Hrun :
    INIT_CRC_PCLMUL (mk_platform true true true true true true true false)
      (boot_state true) =
    inr (tt, emit (EvStaticCallUpdate vpclmul_avx10_512)
               (set_target vpclmul_avx10_512 (boot_state true))))
    by reflexivity.
  assert (Hin :
    In (EvStaticCallUpdate vpclmul_avx10_512)
       (events_since (boot_state true)
          (emit (EvStaticCallUpdate vpclmul_avx10_512)
             (set_target vpclmul_avx10_512 (boot_state true)))))
    by (left; reflexivity).
  split; [exact Hrun |]. split; [exact Hin |].
  exact (proj1 (proj2 (INIT_CRC_PCLMUL_installs_supported _ _ _ _ Hrun Hin))).
Defined.

(** X2.  Running [INIT_CRC_PCLMUL] again on the same machine leaves the
    slot as the first run set it.  The macro never writes the SSE default:
    a run that selects nothing leaves the state untouched, so it cannot
    bring a slot back to Baseline, and a run that selects a wide function
    overwrites whatever the slot held. *)
Theorem INIT_CRC_PCLMUL_rerun (c c' : platform) (s : kstate) :
  exists s1 s2 s3,
    INIT_CRC_PCLMUL c s = inr (tt, s1)
    /\ INIT_CRC_PCLMUL c s1 = inr (tt, s2)
    /\ pclmul_target s2 = pclmul_target s1
    /\ ~ In (EvStaticCallUpdate pclmul_sse) (events_since s s1)
    /\ INIT_CRC_PCLMUL c' s1 = inr (tt, s3)
    /\ (probe (feature_set_of c') = Baseline -> s3 = s1)
    /\ (probe (feature_set_of c') <> Baseline ->
        pclmul_target s3 = func_of (probe (feature_set_of c'))).
Proof.
  pose (after := fun (c0 : platform) (s0 : kstate) =>
          match probe (feature_set_of c0) with
          | Baseline => s0
          | v => emit (EvStaticCallUpdate (func_of v))
                   (set_target (func_of v) s0)
          end).
  assert (Hrun : forall c0 s0, INIT_CRC_PCLMUL c0 s0 = inr (tt, after c0 s0)).
  { intros c0 s0. rewrite INIT_CRC_PCLMUL_run. unfold after.
    now destruct (probe (feature_set_of c0)). }
  exists (after c s), (after c (after c s)), (after c' (after c s)).
  split; [apply Hrun |]. split; [apply Hrun |].
  split.
  { unfold after. now destruct (probe (feature_set_of c)). }
  split.
  { unfold after. destruct (probe (feature_set_of c)).
    - rewrite events_since_refl. intros [].
    - erewrite events_since_app by reflexivity.
      intros [H | []]; discriminate.
    - erewrite events_since_app by reflexivity.
      intros [H | []]; discriminate.
    - erewrite events_since_app by reflexivity.
      intros [H | []]; discriminate. }
  split; [apply Hrun |].
  generalize (after c s). intros s1. unfold after. split.
  - intros ->. reflexivity.
  - intros Hsel. destruct (probe (feature_set_of c'));
      [now elim Hsel | reflexivity | reflexivity | reflexivity].
Qed.

Section Composition.

Context {F : CrcFamily}.

(** X3.  The function entered by an accelerated call is the one that
    initialization selected: after [INIT_CRC_PCLMUL] on a freshly booted
    machine, [CRC_PCLMUL] returns the value of exactly the function the
    decision table picks for the machine's flags (the SSE default when it
    picks none), between one begin and one end of a kernel-FPU section,
    and falls through otherwise. *)
Theorem INIT_then_CRC_PCLMUL (c : platform) (ctx : bool) (crc : crc_t)
    (p : list byte) (len : N) (consts : crc_pclmul_consts)
    (have_pclmulqdq is_fallback_sliced : bool) :
  let f := func_of (probe (feature_set_of c)) in
  exists s1,
    INIT_CRC_PCLMUL c (boot_state ctx) = inr (tt, s1)
    /\ pclmul_target s1 = f
    /\ bind (INIT_CRC_PCLMUL c)
         (fun _ => CRC_PCLMUL crc p len consts have_pclmulqdq
                     is_fallback_sliced)
         (boot_state ctx) =
       (if have_pclmulqdq && ctx && (threshold is_fallback_sliced <=? len)
        then inr (Some (simd f crc p len
                          (fold_across_128_bits_consts consts)),
                  accel_done s1 len)
        else inr (None, s1))
    /\ events_since s1 (accel_done s1 len) =
       [EvKernelFpuBegin; EvStaticCall f len; EvKernelFpuEnd].
Proof.
  cbv zeta. unfold bind. rewrite INIT_CRC_PCLMUL_run.
  destruct (probe (feature_set_of c));
    (eexists; split; [reflexivity |];
     split; [reflexivity |];
     split; [| apply events_since_accel];
     cbv beta iota zeta;
     rewrite CRC_PCLMUL_run; unfold gate_open, simd_usable;
     cbn [in_kernel_fpu fpu_context_ok pclmul_target boot_state emit
          set_target negb];
     now rewrite andb_true_r).
Qed.

(** What a sequence of served calls adds to the log. *)
Lemma serve_trace (consts : crc_pclmul_consts)
    (have_pclmulqdq is_fallback_sliced : bool) (calls : list crc_call) :
  forall s,
    exists rs s' tr,
      serve consts have_pclmulqdq is_fallback_sliced calls s = inr (rs, s')
      /\ List.length rs = List.length calls
      /\ klog s' = klog s ++ tr
      /\ fpu_monitor false tr = Some false
      /\ in_kernel_fpu s' = in_kernel_fpu s
      /\ Forall (fun e =>
                   match e with
                   | EvStaticCall f n => f = pclmul_target s /\ 16 <= n
                   | EvStaticCallUpdate _ => False
                   | _ => True
                   end) tr.
Proof.
  induction calls as [|c rest IH]; intros s.
  - exists [], s, []. rewrite app_nil_r. now repeat split.
  - cbn [serve]. unfold bind at 1. unfold enter_context.
    unfold bind at 1. rewrite dispatch_run.
    set (s0 := set_context (call_ctx_ok c) s).
    destruct (gate_open have_pclmulqdq is_fallback_sliced (call_len c) s0)
      eqn:Hgate.
    + apply gate_open_iff in Hgate. destruct Hgate as (_ & Hus & Hlen).
      pose proof (threshold_ge_16 is_fallback_sliced) as Hthr.
      unfold simd_usable in Hus. apply andb_true_iff in Hus.
      destruct Hus as (_ & Hfree). apply negb_true_iff in Hfree.
      destruct (IH (accel_done s0 (call_len c)))
        as (rs & s' & tr & Hrun & Hn & Hlog & Hmon & Hheld & Hall).
      unfold bind. rewrite Hrun.
      exists (simd (pclmul_target s0) (call_crc c) (call_p c) (call_len c)
                (fold_across_128_bits_consts consts) :: rs), s',
        ([EvKernelFpuBegin; EvStaticCall (pclmul_target s) (call_len c);
          EvKernelFpuEnd] ++ tr).
      split; [reflexivity |].
      split; [simpl; now rewrite Hn |].
      split; [rewrite Hlog; simpl; now rewrite <- app_assoc |].
      split; [exact Hmon |].
      split; [rewrite Hheld; simpl; symmetry; exact Hfree |].
      repeat constructor; [lia |]. exact Hall.
    + destruct (IH s0)
        as (rs & s' & tr & Hrun & Hn & Hlog & Hmon & Hheld & Hall).
      unfold bind. rewrite Hrun.
      exists (crc_fallback (call_crc c) (call_p c) (call_len c) :: rs), s', tr.
      split; [reflexivity |].
      split; [simpl; now rewrite Hn |].
      now repeat split.
Qed.

(** X4.  Any sequence of calls keeps the scope-guard discipline: no call
    faults; over the whole sequence begin and end alternate, every SIMD
    call happens inside a kernel-FPU section, has [len >= 16] and enters
    the function the slot held at the start; nothing writes the slot; and
    the register file ends as it was found. *)
Theorem serve_guard_discipline (consts : crc_pclmul_consts)
    (have_pclmulqdq is_fallback_sliced : bool) (calls : list crc_call)
    (s : kstate) :
  exists rs s',
    serve consts have_pclmulqdq is_fallback_sliced calls s = inr (rs, s')
    /\ List.length rs = List.length calls
    /\ klog s' = klog s ++ events_since s s'
    /\ fpu_monitor false (events_since s s') = Some false
    /\ in_kernel_fpu s' = in_kernel_fpu s
    /\ (forall f n, In (EvStaticCall f n) (events_since s s') ->
                    f = pclmul_target s /\ 16 <= n)
    /\ (forall f, ~ In (EvStaticCallUpdate f) (events_since s s')).
Proof.
  destruct (serve_trace consts have_pclmulqdq is_fallback_sliced calls s)
    as (rs & s' & tr & Hrun & Hn & Hlog & Hmon & Hheld & Hall).
  exists rs, s'. rewrite (events_since_app s s' tr Hlog).
  rewrite Forall_forall in Hall.
  repeat apply conj; try assumption.
  - intros f n Hin. exact (Hall _ Hin).
  - intros f Hin. exact (Hall _ Hin).
Qed.

End Composition.

End CrcPclmulFacts.

(* ===================================================================== *)
(** * Part IV.  Properties of the 3D V-Cache mode attribute               *)
(* ===================================================================== *)

Module X3dVcacheFacts.

Import X3dVcache.
Local Open Scope Z_scope.

Lemma to_ssize_t_of_count (count : Z) :
  0 <= count <= SSIZE_MAX -> to_ssize_t (to_size_t count) = count.
Proof.
  unfold to_ssize_t, to_size_t, SSIZE_MAX. intros H.
  rewrite (Z.mod_small count) by lia.
  rewrite Z.mod_small by lia. lia.
Qed.

Lemma to_ssize_t_of_errno : to_ssize_t (to_size_t (- EINVAL)) = - EINVAL.
Proof. reflexivity. Qed.

Example sysfs_streq_examples :
  sysfs_streq "cache" "cache" = true
  /\ sysfs_streq "cache" (String.append "cache" (String newline "")) = true
  /\ sysfs_streq (String.append "cache" (String newline "")) "cache" = true
  /\ sysfs_streq "cache" "cachex" = false
  /\ sysfs_streq "cache" "cach" = false
  /\ sysfs_match_string amd_x3d_mode_strings "Cache" = - EINVAL.
Proof. repeat split. Qed.

(** The index found in the two-entry table. *)
Lemma sysfs_match_string_modes (buf : string) :
  sysfs_match_string amd_x3d_mode_strings buf =
  if sysfs_streq "frequency" buf then MODE_INDEX_FREQ
  else if sysfs_streq "cache" buf then MODE_INDEX_CACHE
  else - EINVAL.
Proof. reflexivity. Qed.

Lemma sysfs_match_string_range (buf : string) :
  let idx := sysfs_match_string amd_x3d_mode_strings buf in
  idx = - EINVAL \/ idx = MODE_INDEX_FREQ \/ idx = MODE_INDEX_CACHE.
Proof.
  cbv zeta. rewrite sysfs_match_string_modes.
  destruct (sysfs_streq "frequency" buf); [auto |].
  destruct (sysfs_streq "cache" buf); auto.
Qed.

(** The store callback in closed form. *)
Lemma amd_x3d_mode_store_run (data : amd_x3d_dev) (buf : string) (count : Z) :
  let idx := sysfs_match_string amd_x3d_mode_strings buf in
  amd_x3d_mode_store data buf count =
  if idx <? 0 then (- EINVAL, data)
  else match acpi_evaluate_dsm (ahandle data) DSM_REVISION_ID
               DSM_SET_X3D_MODE (Some (ACPI_TYPE_INTEGER idx)) with
       | None => (- EINVAL, data)
       | Some _ => (to_ssize_t (to_size_t count), set_curr_mode idx data)
       end.
Proof.
  cbv zeta. unfold amd_x3d_mode_store, amd_x3d_mode_switch.
  destruct (sysfs_match_string_range buf) as [H | [H | H]]; rewrite H.
  - reflexivity.
  - change (MODE_INDEX_FREQ <? 0) with false. cbv iota.
    destruct (acpi_evaluate_dsm _ _ _ _); reflexivity.
  - change (MODE_INDEX_CACHE <? 0) with false. cbv iota.
    destruct (acpi_evaluate_dsm _ _ _ _); reflexivity.
Qed.

(** C9.  [curr_mode] changes only when the _DSM call succeeds.  If the
    input matches neither "frequency" nor "cache", or if the _DSM
    evaluation fails, the store returns the negative code [-EINVAL] and
    leaves the device untouched; if it succeeds the store returns [count]
    and [curr_mode] is the index of the requested mode. *)
Theorem amd_x3d_mode_store_outcome (data : amd_x3d_dev) (buf : string)
    (count : Z) (Hcount : 0 <= count <= SSIZE_MAX) :
  let idx := sysfs_match_string amd_x3d_mode_strings buf in
  let out := acpi_evaluate_dsm (ahandle data) DSM_REVISION_ID
               DSM_SET_X3D_MODE (Some (ACPI_TYPE_INTEGER idx)) in
  let ret := fst (amd_x3d_mode_store data buf count) in
  let data' := snd (amd_x3d_mode_store data buf count) in
  (idx < 0 <->
   sysfs_streq "frequency" buf = false /\ sysfs_streq "cache" buf = false)
  /\ (idx < 0 -> ret = - EINVAL /\ ret < 0 /\ data' = data)
  /\ (0 <= idx -> out = None -> ret = - EINVAL /\ ret < 0 /\ data' = data)
  /\ (0 <= idx -> out <> None ->
      ret = count /\ curr_mode data' = idx /\
      nth_error amd_x3d_mode_strings (Z.to_nat idx) <> None /\
      sysfs_streq (nth (Z.to_nat idx) amd_x3d_mode_strings EmptyString) buf
      = true)
  /\ (curr_mode data' <> curr_mode data -> out <> None /\ ret = count).
Proof.
  cbv zeta. rewrite amd_x3d_mode_store_run. cbv zeta.
  pose proof (sysfs_match_string_modes buf) as Hidx.
  set (idx := sysfs_match_string amd_x3d_mode_strings buf) in *.
  set (out := acpi_evaluate_dsm _ _ _ _).
  assert (Hneg : idx < 0 <->
                 sysfs_streq "frequency" buf = false /\
                 sysfs_streq "cache" buf = false).
  { rewrite Hidx. unfold MODE_INDEX_FREQ, MODE_INDEX_CACHE, EINVAL.
    destruct (sysfs_streq "frequency" buf), (sysfs_streq "cache" buf);
      split; intros H; try lia; try (destruct H; discriminate);
      split; reflexivity. }
  assert (Hentry : 0 <= idx ->
            nth_error amd_x3d_mode_strings (Z.to_nat idx) <> None /\
            sysfs_streq (nth (Z.to_nat idx) amd_x3d_mode_strings EmptyString)
              buf = true).
  { rewrite Hidx.
    destruct (sysfs_streq "frequency" buf) eqn:Hf.
    - intros _. split; [discriminate | exact Hf].
    - destruct (sysfs_streq "cache" buf) eqn:Hc.
      + intros _. split; [discriminate | exact Hc].
      + unfold EINVAL. lia. }
  split; [exact Hneg |].
  destruct (Z.ltb_spec idx 0) as [Hlt | Hge]; cbn [fst snd].
  - (* no table entry matches *)
    unfold EINVAL. repeat apply conj; try lia; try reflexivity.
    intros H. now elim H.
  - destruct out as [obj |]; cbn [fst snd].
    + (* the firmware accepted the mode *)
      rewrite to_ssize_t_of_count by exact Hcount.
      repeat apply conj; try lia; try discriminate.
      * intros _ _. repeat split; now apply Hentry.
      * intros _. split; [discriminate | reflexivity].
    + (* _DSM evaluation failed *)
      unfold EINVAL. repeat apply conj; try lia.
      * intros _ _. repeat split.
      * intros _ H. now elim H.
Qed.

Lemma amd_x3d_mode_store_outcome_witness :
  0 <= 5 <= SSIZE_MAX
  /\ fst (amd_x3d_mode_store (sample_dev fw_accepts 0) "cache" 5) = 5
  /\ curr_mode (snd (amd_x3d_mode_store (sample_dev fw_accepts 0) "cache" 5))
     = MODE_INDEX_CACHE.
Proof.
  assert (Hcount : 0 <= 5 <= SSIZE_MAX) by (unfold SSIZE_MAX; lia).
  split; [exact Hcount |].
  destruct (amd_x3d_mode_store_outcome (sample_dev fw_accepts 0) "cache" 5
              Hcount) as (_ & _ & _ & Hok & _).
  destruct Hok as (Hret & Hmode & _).
  - vm_compute. discriminate.
  - discriminate.
  - split; [exact Hret | exact Hmode].
Defined.

(** The show callback in closed form. *)
Lemma amd_x3d_mode_show_run (d : amd_x3d_dev) :
  (~ MODE_INDEX_FREQ <= curr_mode d <= MODE_INDEX_CACHE /\
   amd_x3d_mode_show d = (- EINVAL, None))
  \/ (exists m,
        MODE_INDEX_FREQ <= curr_mode d <= MODE_INDEX_CACHE
        /\ nth_error amd_x3d_mode_strings (Z.to_nat (curr_mode d)) = Some m
        /\ In m amd_x3d_mode_strings
        /\ amd_x3d_mode_show d =
           (Z.of_nat (String.length m) + 1,
            Some (String.append m (String newline EmptyString)))).
Proof.
  unfold amd_x3d_mode_show, MODE_INDEX_FREQ, MODE_INDEX_CACHE.
  destruct (Z.gtb_spec (curr_mode d) 1) as [Hhi | Hhi];
    [left; split; [lia | reflexivity] |].
  destruct (Z.ltb_spec (curr_mode d) 0) as [Hlo | Hlo];
    [left; split; [lia | reflexivity] |].
  right. simpl orb. cbv iota.
  assert (Hm : curr_mode d = 0 \/ curr_mode d = 1) by lia.
  destruct Hm as [-> | ->].
  - exists "frequency"%string. repeat split; try lia. now left.
  - exists "cache"%string. repeat split; try lia. right; now left.
Qed.

(** C10.  After a successful store of "frequency" or of "cache" (one that
    did not return a negative code), show emits that same string followed
    by a newline.  For any device, show either emits an entry of the
    two-string mode table followed by a newline, or, when [curr_mode] is
    outside the table, emits nothing and returns [-EINVAL]. *)
Theorem amd_x3d_mode_show_after_store (data : amd_x3d_dev) (buf : string)
    (count : Z)
    (Hbuf : buf = "frequency"%string \/ buf = "cache"%string)
    (Hok : 0 <= fst (amd_x3d_mode_store data buf count)) :
  amd_x3d_mode_show (snd (amd_x3d_mode_store data buf count)) =
  (Z.of_nat (String.length buf) + 1,
   Some (String.append buf (String newline EmptyString)))
  /\ forall d : amd_x3d_dev,
       (~ MODE_INDEX_FREQ <= curr_mode d <= MODE_INDEX_CACHE /\
        amd_x3d_mode_show d = (- EINVAL, None))
       \/ (exists m,
             MODE_INDEX_FREQ <= curr_mode d <= MODE_INDEX_CACHE
             /\ nth_error amd_x3d_mode_strings (Z.to_nat (curr_mode d)) =
                Some m
             /\ In m amd_x3d_mode_strings
             /\ amd_x3d_mode_show d =
                (Z.of_nat (String.length m) + 1,
                 Some (String.append m (String newline EmptyString)))).
Proof.
  split; [| exact amd_x3d_mode_show_run].
  revert Hok. rewrite amd_x3d_mode_store_run. cbv zeta.
  destruct Hbuf as [-> | ->].
  - change (sysfs_match_string amd_x3d_mode_strings "frequency")
      with MODE_INDEX_FREQ.
    change (MODE_INDEX_FREQ <? 0) with false. cbv iota.
    destruct (acpi_evaluate_dsm _ _ _ _) as [out |]; cbn [fst snd].
    + intros _. reflexivity.
    + unfold EINVAL. lia.
  - change (sysfs_match_string amd_x3d_mode_strings "cache")
      with MODE_INDEX_CACHE.
    change (MODE_INDEX_CACHE <? 0) with false. cbv iota.
    destruct (acpi_evaluate_dsm _ _ _ _) as [out |]; cbn [fst snd].
    + intros _. reflexivity.
    + unfold EINVAL. lia.
Qed.

Lemma amd_x3d_mode_show_after_store_witness :
  ("frequency"%string = "frequency"%string \/
   "frequency"%string = "cache"%string)
  /\ 0 <= fst (amd_x3d_mode_store (sample_dev fw_accepts 1) "frequency" 10)
  /\ amd_x3d_mode_show
       (snd (amd_x3d_mode_store (sample_dev fw_accepts 1) "frequency" 10)) =
     (10, Some (String.append "frequency" (String newline EmptyString))).
Proof.
  assert (Hbuf : "frequency"%string = "frequency"%string \/
                 "frequency"%string = "cache"%string)
    by (left; reflexivity).
  assert (Hok : 0 <= fst (amd_x3d_mode_store (sample_dev fw_accepts 1)
                            "frequency" 10))
    by (vm_compute; discriminate).
  split; [exact Hbuf |]. split; [exact Hok |].
  exact (proj1 (amd_x3d_mode_show_after_store (sample_dev fw_accepts 1)
                  "frequency" 10 Hbuf Hok)).
Defined.

(** ** Further properties of the mode attribute *)

(** Against an entry without newline, [sysfs_streq] accepts the entry
    itself and the entry followed by one newline, nothing else. *)
Lemma sysfs_streq_entry (s1 : string) :
  no_newline s1 = true ->
  forall s2, sysfs_streq s1 s2 = true <-> s2 = s1 \/ s2 = line s1.
Proof.
  unfold line. induction s1 as [|c r IH]; intros Hnl s2.
  - destruct s2 as [|c2 [|c3 r2]]; simpl.
    + split; auto.
    + destruct (Ascii.eqb_spec c2 newline) as [-> | Hne].
      * split; [intros _; now right | reflexivity].
      * split; [discriminate | intros [H | H]; [discriminate | congruence]].
    + split; [discriminate | intros [H | H]; discriminate].
  - simpl in Hnl. apply andb_true_iff in Hnl. destruct Hnl as (Hc & Hr).
    apply negb_true_iff in Hc.
    destruct s2 as [|c2 r2].
    + simpl. destruct r; rewrite ?Hc;
        (split; [discriminate | intros [H | H]; discriminate]).
    + cbn [sysfs_streq]. destruct (Ascii.eqb_spec c c2) as [<- | Hne].
      * rewrite (IH Hr r2). cbn [String.append]. split; intros [H | H];
          solve [left; congruence | right; congruence].
      * assert (Hrest : streq_rest (String c r) (String c2 r2) = false)
          by (simpl; now destruct r).
        rewrite Hrest. cbn [String.append].
        split; [discriminate | intros [H | H]; congruence].
Qed.

(** The inputs that [sysfs_match_string] finds in the mode table. *)
Lemma sysfs_match_string_accepts (buf : string) :
  let idx := sysfs_match_string amd_x3d_mode_strings buf in
  (idx = MODE_INDEX_FREQ <->
   buf = "frequency"%string \/ buf = line "frequency")
  /\ (idx = MODE_INDEX_CACHE <-> buf = "cache"%string \/ buf = line "cache")
  /\ (0 <= idx <->
      buf = "frequency"%string \/ buf = line "frequency" \/
      buf = "cache"%string \/ buf = line "cache").
Proof.
  cbv zeta.
  pose proof (sysfs_streq_entry "frequency" eq_refl buf) as Hf.
  pose proof (sysfs_streq_entry "cache" eq_refl buf) as Hc.
  assert (Hdisj : ~ ((buf = "frequency"%string \/ buf = line "frequency") /\
                     (buf = "cache"%string \/ buf = line "cache"))).
  { intros [[-> | ->] [H | H]]; discriminate. }
  rewrite sysfs_match_string_modes.
  unfold MODE_INDEX_FREQ, MODE_INDEX_CACHE, EINVAL.
  destruct (sysfs_streq "frequency" buf) eqn:Ef;
    [| destruct (sysfs_streq "cache" buf) eqn:Ec].
  - assert (Hin : buf = "frequency"%string \/ buf = line "frequency")
      by now apply Hf.
    split; [| split]; split; intros; first [lia | tauto].
  - assert (Hin : buf = "cache"%string \/ buf = line "cache")
      by now apply Hc.
    split; [| split]; split; intros; first [lia | tauto].
  - assert (Hnf : ~ (buf = "frequency"%string \/ buf = line "frequency")).
    { intros H. apply Hf in H. discriminate. }
    assert (Hnc : ~ (buf = "cache"%string \/ buf = line "cache")).
    { intros H. apply Hc in H. discriminate. }
    split; [| split]; split; intros; first [lia | tauto].
Qed.




Lemma mode_valid_iff (d : amd_x3d_dev) :
  mode_valid d = true <->
  curr_mode d = MODE_INDEX_FREQ \/ curr_mode d = MODE_INDEX_CACHE.
Proof.
  unfold mode_valid, MODE_INDEX_FREQ, MODE_INDEX_CACHE.
  rewrite andb_true_iff, !Z.leb_le. lia.
Qed.

Lemma set_curr_mode_same (d : amd_x3d_dev) : set_curr_mode (curr_mode d) d = d.
Proof. now destruct d. Qed.

(** X7.  Show then store: on a device whose mode is in the table, show
    succeeds, and writing back what it emitted never changes the device,
    whether or not the firmware accepts the call; the text read names the
    current mode. *)
Theorem amd_x3d_mode_show_then_store (d : amd_x3d_dev) (count : Z)
    (Hvalid : mode_valid d = true) :
  exists n out,
    amd_x3d_mode_show d = (n, Some out)
    /\ 0 < n
    /\ sysfs_match_string amd_x3d_mode_strings out = curr_mode d
    /\ snd (amd_x3d_mode_store d out count) = d.
Proof.
  apply mode_valid_iff in Hvalid.
  assert (Hshow : forall m idx,
            curr_mode d = idx ->
            sysfs_match_string amd_x3d_mode_strings (line m) = idx ->
            snd (amd_x3d_mode_store d (line m) count) = d).
  { intros m idx Hd Hm. rewrite amd_x3d_mode_store_run. cbv zeta.
    rewrite Hm. destruct (idx <? 0); [reflexivity |].
    destruct (acpi_evaluate_dsm _ _ _ _); [| reflexivity].
    cbn [snd]. rewrite <- Hd. apply set_curr_mode_same. }
  unfold amd_x3d_mode_show.
  destruct Hvalid as [Hd | Hd]; rewrite Hd.
  - exists 10, (line "frequency").
    repeat split. now apply (Hshow "frequency"%string MODE_INDEX_FREQ).
  - exists 6, (line "cache").
    repeat split. now apply (Hshow "cache"%string MODE_INDEX_CACHE).
Qed.

Lemma amd_x3d_mode_show_then_store_witness :
  mode_valid (sample_dev fw_rejects 1) = true
  /\ exists n out,
       amd_x3d_mode_show (sample_dev fw_rejects 1) = (n, Some out)
       /\ 0 < n
       /\ sysfs_match_string amd_x3d_mode_strings out =
          curr_mode (sample_dev fw_rejects 1)
       /\ snd (amd_x3d_mode_store (sample_dev fw_rejects 1) out 6) =
          sample_dev fw_rejects 1.
Proof.
  assert (Hv : mode_valid (sample_dev fw_rejects 1) = true) by reflexivity.
  split; [exact Hv |].
  exact (amd_x3d_mode_show_then_store (sample_dev fw_rejects 1) 6 Hv).
Defined.

(** X14.  The store consults the firmware only by evaluating _DSM
    function [DSM_SET_X3D_MODE] at revision 0 with an integer argument 0
    or 1, and uses only whether an object came back: on two devices in
    the same mode whose firmware agrees on that, every write returns the
    same value and leaves the same mode. *)
Theorem amd_x3d_mode_store_firmware_use (d d' : amd_x3d_dev) (buf : string)
    (count : Z)
    (Hmode : curr_mode d = curr_mode d')
    (Hfw : forall m,
        m = MODE_INDEX_FREQ \/ m = MODE_INDEX_CACHE ->
        (ahandle d DSM_REVISION_ID DSM_SET_X3D_MODE
           (Some (ACPI_TYPE_INTEGER m)) = None <->
         ahandle d' DSM_REVISION_ID DSM_SET_X3D_MODE
           (Some (ACPI_TYPE_INTEGER m)) = None)) :
  fst (amd_x3d_mode_store d buf count) = fst (amd_x3d_mode_store d' buf count)
  /\ curr_mode (snd (amd_x3d_mode_store d buf count)) =
     curr_mode (snd (amd_x3d_mode_store d' buf count)).
Proof.
  rewrite !amd_x3d_mode_store_run. cbv zeta. unfold acpi_evaluate_dsm.
  destruct (sysfs_match_string_range buf) as [H | [H | H]]; rewrite H.
  - split; [reflexivity | exact Hmode].
  - change (MODE_INDEX_FREQ <? 0) with false. cbv iota.
    specialize (Hfw MODE_INDEX_FREQ (or_introl eq_refl)).
    destruct (ahandle d _ _ _), (ahandle d' _ _ _); cbn [fst snd];
      try (split; [reflexivity | first [reflexivity | exact Hmode]]);
      exfalso; destruct Hfw as (H1 & H2);
      first [now discriminate H1 | now discriminate H2].
  - change (MODE_INDEX_CACHE <? 0) with false. cbv iota.
    specialize (Hfw MODE_INDEX_CACHE (or_intror eq_refl)).
    destruct (ahandle d _ _ _), (ahandle d' _ _ _); cbn [fst snd];
      try (split; [reflexivity | first [reflexivity | exact Hmode]]);
      exfalso; destruct Hfw as (H1 & H2);
      first [now discriminate H1 | now discriminate H2].
Qed.

Lemma amd_x3d_mode_store_firmware_use_witness :
  fst (amd_x3d_mode_store (sample_dev fw_full 0) "cache" 5) =
  fst (amd_x3d_mode_store (sample_dev fw_no_funcs 0) "cache" 5)
  /\ fw_full 0 DSM_GET_FUNCS_SUPPORTED None <>
     fw_no_funcs 0 DSM_GET_FUNCS_SUPPORTED None.
Proof.
  split; [| discriminate].
  refine (proj1 (amd_x3d_mode_store_firmware_use (sample_dev fw_full 0)
                   (sample_dev fw_no_funcs 0) "cache" 5 eq_refl _)).
  intros m [-> | ->]; split; intros H; exact H.
Defined.

Lemma amd_x3d_mode_store_keeps_valid (d : amd_x3d_dev) (buf : string)
    (count : Z) :
  mode_valid d = true ->
  mode_valid (snd (amd_x3d_mode_store d buf count)) = true.
Proof.
  intros Hv. rewrite amd_x3d_mode_store_run. cbv zeta.
  destruct (sysfs_match_string_range buf) as [H | [H | H]]; rewrite H.
  - exact Hv.
  - change (MODE_INDEX_FREQ <? 0) with false. cbv iota.
    destruct (acpi_evaluate_dsm _ _ _ _); [reflexivity | exact Hv].
  - change (MODE_INDEX_CACHE <? 0) with false. cbv iota.
    destruct (acpi_evaluate_dsm _ _ _ _); [reflexivity | exact Hv].
Qed.

Lemma amd_x3d_stores_app (d : amd_x3d_dev) (ops : list store_op)
    (op : store_op) :
  amd_x3d_stores d (ops ++ [op]) =
  snd (amd_x3d_apply (amd_x3d_stores d ops) op).
Proof.
  revert d. induction ops as [|o rest IH]; intros d; simpl;
    [reflexivity | apply IH].
Qed.

(** X8.  The mode stays inside the table: starting from a device whose
    [curr_mode] is 0 or 1, no sequence of writes, with whatever inputs
    and firmware answers, leads to a state in which show returns
    [-EINVAL]; show always emits one of the two table entries. *)
Theorem amd_x3d_stores_keep_mode_valid (d : amd_x3d_dev)
    (ops : list store_op) (Hvalid : mode_valid d = true) :
  mode_valid (amd_x3d_stores d ops) = true
  /\ exists m,
       In m amd_x3d_mode_strings
       /\ amd_x3d_mode_show (amd_x3d_stores d ops) =
          (Z.of_nat (String.length m) + 1, Some (line m)).
Proof.
  assert (Hinv : mode_valid (amd_x3d_stores d ops) = true).
  { revert d Hvalid. induction ops as [|op rest IH]; intros d Hvalid.
    - exact Hvalid.
    - simpl. apply IH. unfold amd_x3d_apply.
      now apply amd_x3d_mode_store_keeps_valid. }
  split; [exact Hinv |].
  destruct (amd_x3d_mode_show_run (amd_x3d_stores d ops))
    as [(Hout & _) | (m & _ & _ & Hin & Hshow)].
  - apply mode_valid_iff in Hinv.
    exfalso. apply Hout. unfold MODE_INDEX_FREQ, MODE_INDEX_CACHE in *. lia.
  - exists m. split; [exact Hin | exact Hshow].
Qed.

Lemma amd_x3d_stores_keep_mode_valid_witness :
  mode_valid (sample_dev fw_accepts 0) = true
  /\ mode_valid
       (amd_x3d_stores (sample_dev fw_accepts 0)
          [ {| op_fw := fw_accepts; op_buf := line "cache"; op_count := 6 |};
            {| op_fw := fw_rejects; op_buf := "frequency"; op_count := 9 |};
            {| op_fw := fw_accepts; op_buf := "turbo"; op_count := 5 |} ])
     = true.
Proof.
  assert (Hv : mode_valid (sample_dev fw_accepts 0) = true) by reflexivity.
  split; [exact Hv |].
  exact (proj1 (amd_x3d_stores_keep_mode_valid (sample_dev fw_accepts 0) _ Hv)).
Defined.

(** X9.  The last successful write wins: after a sequence of writes, a
    further write that returns a non-negative value returns its [count]
    and sets the mode it names, whatever came before; one that returns a
    negative value returns [-EINVAL] and leaves the mode the earlier
    writes produced. *)
Theorem amd_x3d_stores_last_wins (d : amd_x3d_dev) (ops : list store_op)
    (op : store_op) (Hcount : 0 <= op_count op <= SSIZE_MAX) :
  let before := amd_x3d_stores d ops in
  let after := amd_x3d_stores d (ops ++ [op]) in
  let ret := fst (amd_x3d_apply before op) in
  (0 <= ret ->
   ret = op_count op /\
   curr_mode after = sysfs_match_string amd_x3d_mode_strings (op_buf op))
  /\ (ret < 0 ->
      ret = - EINVAL /\ curr_mode after = curr_mode before).
Proof.
  cbv zeta. rewrite amd_x3d_stores_app. unfold amd_x3d_apply.
  rewrite amd_x3d_mode_store_run. cbv zeta.
  set (before := amd_x3d_stores d ops).
  destruct (sysfs_match_string_range (op_buf op)) as [H | [H | H]]; rewrite H.
  - cbn [fst snd]. unfold EINVAL. simpl. split; [lia | now split].
  - change (MODE_INDEX_FREQ <? 0) with false. cbv iota.
    destruct (acpi_evaluate_dsm _ _ _ _); cbn [fst snd].
    + rewrite to_ssize_t_of_count by exact Hcount.
      split; [now split | lia].
    + unfold EINVAL. split; [lia | now split].
  - change (MODE_INDEX_CACHE <? 0) with false. cbv iota.
    destruct (acpi_evaluate_dsm _ _ _ _); cbn [fst snd].
    + rewrite to_ssize_t_of_count by exact Hcount.
      split; [now split | lia].
    + unfold EINVAL. split; [lia | now split].
Qed.

Lemma amd_x3d_stores_last_wins_witness :
  0 <= 6 <= SSIZE_MAX
  /\ curr_mode
       (amd_x3d_stores (sample_dev fw_accepts 0)
          ([ {| op_fw := fw_accepts; op_buf := "frequency"; op_count := 9 |} ]
           ++ [ {| op_fw := fw_accepts; op_buf := line "cache";
                   op_count := 6 |} ]))
     = MODE_INDEX_CACHE.
Proof.
  assert (Hc : 0 <= 6 <= SSIZE_MAX) by (unfold SSIZE_MAX; lia).
  split; [exact Hc |].
  refine (proj2 (proj1 (amd_x3d_stores_last_wins (sample_dev fw_accepts 0)
            [ {| op_fw := fw_accepts; op_buf := "frequency"; op_count := 9 |} ]
            {| op_fw := fw_accepts; op_buf := line "cache"; op_count := 6 |}
            Hc) _)).
  vm_compute. discriminate.
Defined.

(** ** Probing *)

Lemma match_string_modes (str : string) :
  match_string amd_x3d_mode_strings (ARRAY_SIZE amd_x3d_mode_strings) str =
  if String.eqb "frequency" str then MODE_INDEX_FREQ
  else if String.eqb "cache" str then MODE_INDEX_CACHE
  else - EINVAL.
Proof. reflexivity. Qed.

Lemma match_string_range (str : string) :
  let idx :=
    match_string amd_x3d_mode_strings (ARRAY_SIZE amd_x3d_mode_strings) str in
  (idx = MODE_INDEX_FREQ /\ str = "frequency"%string)
  \/ (idx = MODE_INDEX_CACHE /\ str = "cache"%string)
  \/ (idx = - EINVAL /\ str <> "frequency"%string /\ str <> "cache"%string).
Proof.
  cbv zeta. rewrite match_string_modes.
  destruct (String.eqb_spec "frequency" str) as [<- | Hf]; [now left |].
  destruct (String.eqb_spec "cache" str) as [<- | Hc]; [right; now left |].
  right; right. repeat split; congruence.
Qed.

(** X13.  The module parameter is matched more strictly than the sysfs
    attribute: [match_string] accepts exactly "frequency" and "cache",
    and whatever it accepts the store accepts with the same index, but a
    newline-terminated name, which the store accepts, is rejected. *)
Theorem match_string_stricter_than_sysfs (str : string) :
  let idx :=
    match_string amd_x3d_mode_strings (ARRAY_SIZE amd_x3d_mode_strings) str in
  (0 <= idx <-> str = "frequency"%string \/ str = "cache"%string)
  /\ (idx < 0 <-> idx = - EINVAL)
  /\ (0 <= idx ->
      sysfs_match_string amd_x3d_mode_strings str = idx /\
      nth_error amd_x3d_mode_strings (Z.to_nat idx) = Some str)
  /\ (0 <= sysfs_match_string amd_x3d_mode_strings str ->
      idx < 0 ->
      str = line "frequency" \/ str = line "cache").
Proof.
  cbv zeta.
  pose proof (sysfs_match_string_accepts str) as (_ & _ & Hacc).
  destruct (match_string_range str) as [(-> & ->) | [(-> & ->) | (-> & Hf & Hc)]];
    unfold MODE_INDEX_FREQ, MODE_INDEX_CACHE, EINVAL.
  - repeat split; intros; try lia; auto.
  - repeat split; intros; try lia; auto.
  - split; [split; [lia | tauto] |].
    split; [split; [reflexivity | lia] |].
    split; [lia |].
    intros Hs _. apply Hacc in Hs. tauto.
Qed.

(** The probe function in closed form, once a handle was found and the
    allocation succeeded. *)
Lemma amd_x3d_probe_run (x3d_mode : string) (pdev : platform_device)
    (h : acpi_handle) :
  ACPI_HANDLE pdev = Some h ->
  devm_kzalloc pdev = true ->
  let idx :=
    match_string amd_x3d_mode_strings (ARRAY_SIZE amd_x3d_mode_strings)
      x3d_mode in
  let data0 := {| ahandle := h; curr_mode := MODE_INDEX_FREQ |} in
  let pre :=
    let log :=
      if acpi_match_device pdev then [] else [PeErrProbe (- ENODEV)] in
    if amd_x3d_supported data0 =? 0 then log
    else log ++ [PeErrProbe (amd_x3d_supported data0)] in
  amd_x3d_probe x3d_mode pdev =
  if idx <? 0 then
    {| probe_ret := - EINVAL; probe_drvdata := Some data0;
       probe_log := pre ++ [PeErrProbe (- EINVAL)] |}
  else
    match acpi_evaluate_dsm h DSM_REVISION_ID DSM_SET_X3D_MODE
            (Some (ACPI_TYPE_INTEGER idx)) with
    | None =>
        {| probe_ret := - EINVAL; probe_drvdata := Some data0;
           probe_log := pre ++ [PeMutexInit] |}
    | Some _ =>
        {| probe_ret := devm_add_action pdev;
           probe_drvdata := Some {| ahandle := h; curr_mode := idx |};
           probe_log :=
             if devm_add_action pdev =? 0 then pre ++ [PeMutexInit]
             else amd_x3d_remove (pre ++ [PeMutexInit]) |}
    end.
Proof.
  intros Hh Halloc. cbv zeta. unfold amd_x3d_probe.
  rewrite Hh, Halloc. cbn [negb]. cbv zeta.
  destruct (match_string_range x3d_mode)
    as [(Hi & _) | [(Hi & _) | (Hi & _)]]; rewrite Hi.
  - change (MODE_INDEX_FREQ <? 0) with false. cbv iota.
    unfold amd_x3d_mode_switch. cbn [ahandle].
    destruct (acpi_evaluate_dsm h _ _ _); [| reflexivity].
    change (0 <? 0) with false. cbv iota.
    unfold devm_add_action_or_reset.
    destruct (devm_add_action pdev =? 0); reflexivity.
  - change (MODE_INDEX_CACHE <? 0) with false. cbv iota.
    unfold amd_x3d_mode_switch. cbn [ahandle].
    destruct (acpi_evaluate_dsm h _ _ _); [| reflexivity].
    change (0 <? 0) with false. cbv iota.
    unfold devm_add_action_or_reset.
    destruct (devm_add_action pdev =? 0); reflexivity.
  - reflexivity.
Qed.

(** The messages logged before the mode is looked up are no mutex
    events. *)
Lemma probe_prefix_no_mutex (id : bool) (sup : Z) (e : probe_event) :
  In e (let log := if id then [] else [PeErrProbe (- ENODEV)] in
        if sup =? 0 then log else log ++ [PeErrProbe sup]) ->
  exists err, e = PeErrProbe err.
Proof.
  cbv zeta. destruct id, (sup =? 0); simpl; intros H;
    repeat (destruct H as [<- | H]; [eexists; reflexivity |]);
    destruct H.
Qed.

(** X10.  [amd_x3d_probe] returns 0 exactly when the device has an ACPI
    handle, the allocation succeeds, the module parameter is literally
    "frequency" or "cache", the firmware accepts that mode, and the
    cleanup action can be registered.  The device then holds the mode the
    parameter names, show reports the parameter followed by a newline,
    and the mutex is initialised and not destroyed. *)
Theorem amd_x3d_probe_success (x3d_mode : string) (pdev : platform_device) :
  let r := amd_x3d_probe x3d_mode pdev in
  let idx :=
    match_string amd_x3d_mode_strings (ARRAY_SIZE amd_x3d_mode_strings)
      x3d_mode in
  (probe_ret r = 0 <->
   exists h,
     ACPI_HANDLE pdev = Some h
     /\ devm_kzalloc pdev = true
     /\ (x3d_mode = "frequency"%string \/ x3d_mode = "cache"%string)
     /\ acpi_evaluate_dsm h DSM_REVISION_ID DSM_SET_X3D_MODE
          (Some (ACPI_TYPE_INTEGER idx)) <> None
     /\ devm_add_action pdev = 0)
  /\ (probe_ret r = 0 ->
      exists h,
        ACPI_HANDLE pdev = Some h
        /\ probe_drvdata r = Some {| ahandle := h; curr_mode := idx |}
        /\ mode_valid {| ahandle := h; curr_mode := idx |} = true
        /\ amd_x3d_mode_show {| ahandle := h; curr_mode := idx |} =
           (Z.of_nat (String.length x3d_mode) + 1, Some (line x3d_mode))
        /\ In PeMutexInit (probe_log r)
        /\ ~ In PeMutexDestroy (probe_log r)).
Proof.
  cbv zeta.
  destruct (ACPI_HANDLE pdev) as [h |] eqn:Hh.
  2:{ unfold amd_x3d_probe. rewrite Hh. cbn [probe_ret]. unfold ENODEV.
      split; [split |]; try (intros H; lia).
      intros (h & Hs & _). discriminate. }
  destruct (devm_kzalloc pdev) eqn:Halloc.
  2:{ unfold amd_x3d_probe. rewrite Hh, Halloc. cbn [negb probe_ret].
      unfold ENOMEM.
      split; [split |]; try (intros H; lia).
      intros (h' & _ & Hs & _). discriminate. }
  rewrite (amd_x3d_probe_run x3d_mode pdev h Hh Halloc). cbv zeta.
  set (pre := if amd_x3d_supported _ =? 0 then _ else _).
  assert (Hpre : forall e, In e pre -> exists err, e = PeErrProbe err).
  { intros e. unfold pre. apply probe_prefix_no_mutex. }
  destruct (match_string_range x3d_mode)
    as [(Hi & Hm) | [(Hi & Hm) | (Hi & Hf & Hc)]]; rewrite Hi.
  3:{ cbn [Z.ltb Z.compare EINVAL Z.opp probe_ret]. unfold EINVAL.
      split; [split |]; try (intros H; lia).
      intros (h' & _ & _ & [H | H] & _); congruence. }
  - change (MODE_INDEX_FREQ <? 0) with false. cbv iota.
    destruct (acpi_evaluate_dsm h _ _ _) as [out |] eqn:Hdsm;
      cbn [probe_ret probe_drvdata probe_log].
    2:{ unfold EINVAL.
        split; [split |]; try (intros H; lia).
        intros (h' & Hs & _ & _ & Hn & _).
        injection Hs as <-. now elim Hn. }
    split.
    + split.
      * intros Hz. exists h. subst x3d_mode.
        repeat split; auto; congruence.
      * intros (_ & _ & _ & _ & _ & Hz). exact Hz.
    + intros Hz. rewrite Hz. change (0 =? 0) with true. cbv iota.
      exists h. subst x3d_mode. repeat split.
      * apply in_or_app. right. now left.
      * intros Hin. apply in_app_or in Hin. destruct Hin as [Hin | Hin].
        -- apply Hpre in Hin. destruct Hin as (err & Hin). discriminate.
        -- destruct Hin as [Hin | []]. discriminate.
  - change (MODE_INDEX_CACHE <? 0) with false. cbv iota.
    destruct (acpi_evaluate_dsm h _ _ _) as [out |] eqn:Hdsm;
      cbn [probe_ret probe_drvdata probe_log].
    2:{ unfold EINVAL.
        split; [split |]; try (intros H; lia).
        intros (h' & Hs & _ & _ & Hn & _).
        injection Hs as <-. now elim Hn. }
    split.
    + split.
      * intros Hz. exists h. subst x3d_mode.
        repeat split; auto; congruence.
      * intros (_ & _ & _ & _ & _ & Hz). exact Hz.
    + intros Hz. rewrite Hz. change (0 =? 0) with true. cbv iota.
      exists h. subst x3d_mode. repeat split.
      * apply in_or_app. right. now left.
      * intros Hin. apply in_app_or in Hin. destruct Hin as [Hin | Hin].
        -- apply Hpre in Hin. destruct Hin as (err & Hin). discriminate.
        -- destruct Hin as [Hin | []]. discriminate.
Qed.

(** X11.  Failure paths of [amd_x3d_probe].  Its result is 0, [-ENODEV],
    [-ENOMEM], [-EINVAL] or the error of [devm_add_action].  The mutex is
    initialised only once a handle, the allocation and a valid module
    parameter are there, and it is destroyed only by the reset after a
    failed [devm_add_action]: when the firmware rejects the initial mode,
    probe returns with the mutex initialised and not destroyed. *)
Theorem amd_x3d_probe_failure_paths (x3d_mode : string)
    (pdev : platform_device) :
  let r := amd_x3d_probe x3d_mode pdev in
  let idx :=
    match_string amd_x3d_mode_strings (ARRAY_SIZE amd_x3d_mode_strings)
      x3d_mode in
  let ready h :=
    ACPI_HANDLE pdev = Some h /\ devm_kzalloc pdev = true /\ 0 <= idx in
  let accepted h :=
    acpi_evaluate_dsm h DSM_REVISION_ID DSM_SET_X3D_MODE
      (Some (ACPI_TYPE_INTEGER idx)) <> None in
  (probe_ret r = 0 \/ probe_ret r = - ENODEV \/ probe_ret r = - ENOMEM \/
   probe_ret r = - EINVAL \/ probe_ret r = devm_add_action pdev)
  /\ (In PeMutexInit (probe_log r) <-> exists h, ready h)
  /\ (In PeMutexDestroy (probe_log r) <->
      exists h, ready h /\ accepted h /\ devm_add_action pdev <> 0)
  /\ (forall h, ready h -> ~ accepted h ->
      probe_ret r = - EINVAL
      /\ probe_drvdata r =
         Some {| ahandle := h; curr_mode := MODE_INDEX_FREQ |}).
Proof.
  cbv zeta.
  destruct (ACPI_HANDLE pdev) as [h |] eqn:Hh.
  2:{ unfold amd_x3d_probe. rewrite Hh. cbn [probe_ret probe_log].
      split; [auto |].
      split; [split; [intros [] | intros (h & Hs & _); discriminate] |].
      split; [split; [intros [] | intros (h & (Hs & _) & _); discriminate] |].
      intros h (Hs & _). discriminate. }
  destruct (devm_kzalloc pdev) eqn:Halloc.
  2:{ unfold amd_x3d_probe. rewrite Hh, Halloc.
      cbn [negb probe_ret probe_log].
      split; [auto |].
      split.
      { split; [| intros (h' & _ & Hs & _); discriminate].
        destruct (acpi_match_device pdev); simpl; intros H;
          repeat (destruct H as [H | H]; [discriminate |]); destruct H. }
      split.
      { split; [| intros (h' & (_ & Hs & _) & _); discriminate].
        destruct (acpi_match_device pdev); simpl; intros H;
          repeat (destruct H as [H | H]; [discriminate |]); destruct H. }
      intros h' (_ & Hs & _). discriminate. }
  rewrite (amd_x3d_probe_run x3d_mode pdev h Hh Halloc). cbv zeta.
  set (pre := if amd_x3d_supported _ =? 0 then _ else _).
  assert (Hpre : forall e, In e pre -> exists err, e = PeErrProbe err).
  { intros e. unfold pre. apply probe_prefix_no_mutex. }
  assert (Hnoinit : ~ In PeMutexInit pre).
  { intros H. apply Hpre in H. destruct H as (err & H). discriminate. }
  assert (Hnodestroy : ~ In PeMutexDestroy pre).
  { intros H. apply Hpre in H. destruct H as (err & H). discriminate. }
  set (idx := match_string _ _ x3d_mode).
  destruct (Z.ltb_spec idx 0) as [Hneg | Hpos].
  - cbn [probe_ret probe_log probe_drvdata].
    split; [auto |].
    split.
    { split; [| intros (h' & _ & _ & Hi); lia].
      intros H. apply in_app_or in H. destruct H as [H | [H | []]];
        [now elim Hnoinit | discriminate]. }
    split.
    { split; [| intros (h' & (_ & _ & Hi) & _); lia].
      intros H. apply in_app_or in H. destruct H as [H | [H | []]];
        [now elim Hnodestroy | discriminate]. }
    intros h' (_ & _ & Hi). lia.
  - destruct (acpi_evaluate_dsm h _ _ _) as [out |] eqn:Hdsm;
      cbn [probe_ret probe_log probe_drvdata].
    + split; [auto 6 |].
      split.
      { split; [intros _; exists h; now repeat split |].
        intros _. destruct (devm_add_action pdev =? 0);
          unfold amd_x3d_remove; rewrite ?in_app_iff; simpl; tauto. }
      split.
      { destruct (Z.eqb_spec (devm_add_action pdev) 0) as [Hz | Hnz].
        - split.
          + intros H. apply in_app_or in H. destruct H as [H | [H | []]];
              [now elim Hnodestroy | discriminate].
          + intros (h' & _ & _ & Hn). now elim Hn.
        - split.
          + intros _. exists h. repeat split; try assumption.
            rewrite Hdsm. discriminate.
          + intros _. unfold amd_x3d_remove. rewrite !in_app_iff.
            simpl. tauto. }
      intros h' (Hs & _ & _) Hrej. injection Hs as <-.
      exfalso. apply Hrej. rewrite Hdsm. discriminate.
    + split; [auto |].
      split.
      { split; [intros _; exists h; now repeat split |].
        intros _. rewrite in_app_iff. simpl. tauto. }
      split.
      { split.
        - intros H. apply in_app_or in H. destruct H as [H | [H | []]];
            [now elim Hnodestroy | discriminate].
        - intros (h' & (Hs & _ & _) & Hacc & _). injection Hs as <-.
          exfalso. apply Hacc. exact Hdsm. }
      intros h' (Hs & _ & _) _. injection Hs as <-. now split.
Qed.

(** X12.  The outcome of [amd_x3d_probe] does not depend on the ACPI id
    match nor on what the firmware answers to the supported-functions
    query: two probes that differ only there return the same value and
    leave the same mode.  (The value of these two [dev_err_probe] calls
    is not returned.) *)
Theorem amd_x3d_probe_ignores_checks (x3d_mode : string)
    (pdev pdev' : platform_device) (h h' : acpi_handle)
    (Hh : ACPI_HANDLE pdev = Some h)
    (Hh' : ACPI_HANDLE pdev' = Some h')
    (Hset : forall argv,
        h DSM_REVISION_ID DSM_SET_X3D_MODE argv =
        h' DSM_REVISION_ID DSM_SET_X3D_MODE argv)
    (Halloc : devm_kzalloc pdev = devm_kzalloc pdev')
    (Hdevm : devm_add_action pdev = devm_add_action pdev') :
  probe_ret (amd_x3d_probe x3d_mode pdev) =
  probe_ret (amd_x3d_probe x3d_mode pdev')
  /\ option_map curr_mode (probe_drvdata (amd_x3d_probe x3d_mode pdev)) =
     option_map curr_mode (probe_drvdata (amd_x3d_probe x3d_mode pdev')).
Proof.
  destruct (devm_kzalloc pdev') eqn:Ha'.
  - rewrite (amd_x3d_probe_run x3d_mode pdev h Hh Halloc).
    rewrite (amd_x3d_probe_run x3d_mode pdev' h' Hh' Ha'). cbv zeta.
    destruct (_ <? 0); [split; reflexivity |].
    unfold acpi_evaluate_dsm. rewrite Hset, Hdevm.
    destruct (h' _ _ _); split; reflexivity.
  - unfold amd_x3d_probe. rewrite Hh, Hh', Halloc, Ha'. split; reflexivity.
Qed.

Lemma amd_x3d_probe_ignores_checks_witness :
  probe_ret (amd_x3d_probe "cache" (sample_pdev (Some fw_full) true true 0)) =
  probe_ret
    (amd_x3d_probe "cache" (sample_pdev (Some fw_no_funcs) false true 0))
  /\ amd_x3d_supported (sample_dev fw_no_funcs 0) = - ENODEV
  /\ probe_ret
       (amd_x3d_probe "cache" (sample_pdev (Some fw_no_funcs) false true 0))
     = 0.
Proof.
  split; [| split; reflexivity].
  exact (proj1 (amd_x3d_probe_ignores_checks "cache"
                  (sample_pdev (Some fw_full) true true 0)
                  (sample_pdev (Some fw_no_funcs) false true 0)
                  fw_full fw_no_funcs eq_refl eq_refl
                  (fun _ => eq_refl) eq_refl eq_refl)).
Defined.

End X3dVcacheFacts.
